(** * The Zammad client adapter of [ticketing.tools.zammad_client]

    A shallow embedding of the helper functions of
    [src/ticketing/tools/zammad_client.py] and the properties the
    specification states about them.

    The adapter talks to a duck-typed client library.  What the library and
    the server behind it answer is not part of the repository, so it is a
    parameter of the development (a [World]): every call the adapter makes
    is recorded in a trace, and the answer may depend on the call and on
    everything that happened before it.

    Conventions.  Arguments have the types of the Python annotations ([int]
    is [Z], [Optional[...]] is [option]); an article id taken from an article
    is any value.  A function that may raise returns an [outcome].  Early
    [return]s inside [try] blocks are [Some] results of a helper.  A
    paginated result carries its [next_page] behaviour, so a cursor is a
    finite chain of pages and [_collect_pages] is total; a cursor that never
    ends has no counterpart here. *)

From Stdlib Require Import String Ascii List ZArith NArith Bool Lia.
From Stdlib.Strings Require Import Byte.
From Stdlib Require Import DecimalString.
Import ListNotations.

Set Warnings "-register-all".

Local Open Scope string_scope.
Local Open Scope Z_scope.
Local Open Scope list_scope.

(** ** Python values *)

(** Exceptions.  Every exception of the model is an instance of Python's
    [Exception]; [exn_msg] is what [str(e)] gives. *)
Inductive exn_class :=
| EnvironmentError
| ValueError
| TypeError
| RuntimeError
| AttributeError
| OtherError (name : string).

Record exn := mkExn { exn_cls : exn_class; exn_msg : string }.

Definition is_TypeError (e : exn) : bool :=
  match exn_cls e with TypeError => true | _ => false end.

(** The values the adapter handles: JSON-like data as the client library
    decodes it (strings are sequences of code points below 256, mappings have
    string keys and keep their insertion order), byte buffers, and opaque
    objects described by the capabilities the adapter probes: truthiness,
    iteration, a [next_page] method and a [read] method. *)
Inductive value :=
| VNone
| VBool (b : bool)
| VInt (z : Z)
| VStr (s : string)
| VBytes (bs : list byte)
| VList (xs : list value)
| VDict (kvs : list (string * value))
| VObj (o_truthy : bool) (o_iter : option (list value))
       (o_next_page : attr) (o_read : attr)
with attr :=
| Absent                (* no such callable attribute *)
| Raises (e : exn)      (* calling it raises [e] *)
| Returns (v : value).  (* calling it returns [v] *)

(** [bool(v)] *)
Definition truthy (v : value) : bool :=
  match v with
  | VNone => false
  | VBool b => b
  | VInt z => negb (z =? 0)
  | VStr s => negb (String.eqb s EmptyString)
  | VBytes bs => match bs with [] => false | _ => true end
  | VList xs => match xs with [] => false | _ => true end
  | VDict kvs => match kvs with [] => false | _ => true end
  | VObj t _ _ _ => t
  end.

Fixpoint chars (s : string) : list value :=
  match s with
  | EmptyString => []
  | String c s' => VStr (String c EmptyString) :: chars s'
  end.

(** [iter(v)]: [None] when [v] is not iterable ([list.extend] then raises
    [TypeError]). *)
Definition py_iter (v : value) : option (list value) :=
  match v with
  | VList xs => Some xs
  | VDict kvs => Some (map (fun kv => VStr (fst kv)) kvs)
  | VStr s => Some (chars s)
  | VBytes bs => Some (map (fun b => VInt (Z.of_N (Byte.to_N b))) bs)
  | VObj _ it _ _ => it
  | VNone | VBool _ | VInt _ => None
  end.

Definition is_dict (v : value) : bool :=
  match v with VDict _ => true | _ => false end.

Definition is_list (v : value) : bool :=
  match v with VList _ => true | _ => false end.

Definition is_bytes (v : value) : bool :=
  match v with VBytes _ => true | _ => false end.

(** Mappings as association lists in insertion order. *)
Fixpoint dict_find (k : string) (kvs : list (string * value)) : option value :=
  match kvs with
  | [] => None
  | (k', v) :: rest => if String.eqb k k' then Some v else dict_find k rest
  end.

(** [d[k] = v] *)
Fixpoint dict_set (k : string) (v : value) (kvs : list (string * value))
  : list (string * value) :=
  match kvs with
  | [] => [(k, v)]
  | (k', v') :: rest =>
      if String.eqb k k' then (k', v) :: rest else (k', v') :: dict_set k v rest
  end.

(** [d.update(other)] *)
Definition dict_update (kvs other : list (string * value)) : list (string * value) :=
  fold_left (fun acc kv => dict_set (fst kv) (snd kv) acc) other kvs.

(** A value usable as a key of a Python dict. *)
Definition hashable (v : value) : bool :=
  match v with
  | VList _ | VDict _ => false
  | _ => true
  end.

(** [v == z] for an integer [z] (a bool is the integer 0 or 1). *)
Definition eq_int (v : value) (z : Z) : bool :=
  match v with
  | VInt n => n =? z
  | VBool b => (if b then 1 else 0) =? z
  | _ => false
  end.

(** ** Strings *)

Definition lower_char (c : ascii) : ascii :=
  let n := N_of_ascii c in
  if ((65 <=? n) && (n <=? 90))%N
     || ((192 <=? n) && (n <=? 222) && negb (n =? 215))%N
  then ascii_of_N (n + 32) else c.

(** [s.lower()] *)
Fixpoint lower (s : string) : string :=
  match s with
  | EmptyString => EmptyString
  | String c s' => String (lower_char c) (lower s')
  end.

(** [s.rstrip("/")] *)
Fixpoint rstrip_slash (s : string) : string :=
  match s with
  | EmptyString => EmptyString
  | String c s' =>
      match rstrip_slash s' with
      | EmptyString => if Ascii.eqb c "/" then EmptyString else String c EmptyString
      | r => String c r
      end
  end.

Definition str_of_Z (z : Z) : string := NilZero.string_of_int (Z.to_int z).

(** [s.encode()] (UTF-8) for code points below 256. *)
Fixpoint encode (s : string) : list byte :=
  match s with
  | EmptyString => []
  | String c s' =>
      let n := N_of_ascii c in
      if (n <? 128)%N then byte_of_ascii c :: encode s'
      else
        match Byte.of_N (192 + N.shiftr n 6), Byte.of_N (128 + N.land n 63) with
        | Some b1, Some b2 => b1 :: b2 :: encode s'
        | _, _ => encode s'
        end
  end.

(** ** The world outside the adapter *)

(** What the adapter does to the outside, in order. *)
Inductive event :=
| ticket_all
| ticket_find (ticket_id : Z)
| ticket_update_kw (id : Z) (params : value)
| ticket_update_pos (id : Z) (params : value)
| ticket_priority_all
| ticket_article_all
| ticket_article_find_kw (ticket_id : Z) (id : value)
| ticket_article_find_pos (id : value)
| ticket_article_create_kw (params : value)
| ticket_article_create_pos (params : value)
| ticket_article_create_id_pos (ticket_id : Z) (params : value)
| ticket_article_create_expanded (params : value)
| ticket_article_attachment_all_kw (ticket_id : Z) (article_id : value)
| ticket_article_attachment_all_pos (ticket_id : Z) (article_id : value)
| ticket_article_attachment_download_kw (id ticket_id article_id : Z)
| ticket_article_attachment_download_pos (id ticket_id article_id : Z)
| attachment_download_kw (id : Z)
| attachment_download_pos (id : Z)
| client_download
| next_page
| mkdir_parents (dest_path : string)
| write_file (dest_path : string) (data : list byte).

Definition trace := list event.

Inductive outcome (A : Type) :=
| Return (a : A)
| Raise (e : exn).
Arguments Return {A} a.
Arguments Raise {A} e.

Record World := {
  (** [os.getenv] *)
  getenv : string -> option string;
  (** the library's constructor [ZammadAPI(url=..., username=..., password=...)]:
      the exception it raises on these arguments, if it raises *)
  ZammadAPI_init : string -> option string -> option string -> option exn;
  (** [hasattr(client, name)] *)
  client_has : string -> bool;
  (** the answer of the client library to a call, given what happened so far;
      an attribute the client lacks shows as an [AttributeError] answer *)
  respond : trace -> event -> outcome value;
  (** [str] of a value that is not [None], a bool, an int or a str *)
  py_repr : value -> string;
  (** [base64.b64decode] *)
  b64decode : value -> outcome (list byte);
  (** [json.dumps] *)
  json_dumps : value -> outcome string
}.

(** ** Computations: a trace is threaded, exceptions propagate *)

Definition M (A : Type) := trace -> outcome A * trace.

Definition ret {A} (a : A) : M A := fun h => (Return a, h).

Definition raise {A} (e : exn) : M A := fun h => (Raise e, h).

Definition bind {A B} (m : M A) (k : A -> M B) : M B :=
  fun h =>
    match m h with
    | (Return a, h') => k a h'
    | (Raise e, h') => (Raise e, h')
    end.

Notation "x <- m ;; k" := (bind m (fun x => k))
  (at level 61, m at next level, right associativity).

(** [try: m  except Exception as e: handler(e)] *)
Definition try_except {A} (m : M A) (handler : exn -> M A) : M A :=
  fun h =>
    match m h with
    | (Return a, h') => (Return a, h')
    | (Raise e, h') => handler e h'
    end.

(** [try: m  except TypeError: handler] *)
Definition try_except_TypeError {A} (m : M A) (handler : M A) : M A :=
  fun h =>
    match m h with
    | (Return a, h') => (Return a, h')
    | (Raise e, h') => if is_TypeError e then handler h' else (Raise e, h')
    end.

(** An effect that cannot fail. *)
Definition emit (ev : event) : M unit := fun h => (Return tt, h ++ [ev]).

Section Adapter.

Variable w : World.

(** A call into the client library. *)
Definition call (ev : event) : M value := fun h => (respond w h ev, h ++ [ev]).

(** [str(v)] *)
Definition py_str (v : value) : string :=
  match v with
  | VNone => "None"
  | VBool true => "True"
  | VBool false => "False"
  | VInt z => str_of_Z z
  | VStr s => s
  | _ => py_repr w v
  end.

(** The client object: what [ZammadAPI(url=..., username=..., password=...)]
    was given.  The constructor belongs to the library: whether it accepts the
    arguments is the world's [ZammadAPI_init]. *)
Record ZammadAPI := {
  url : string;
  username : option string;
  password : option string
}.

Definition init_zammad_client : M ZammadAPI :=
  match getenv w "zammad_url" with
  | None => raise (mkExn EnvironmentError "Environment variable `zammad_url` is not set")
  | Some url_base =>
      if String.eqb url_base EmptyString
      then raise (mkExn EnvironmentError "Environment variable `zammad_url` is not set")
      else
        let url := String.append (rstrip_slash url_base) "/api/v1/" in
        let username := getenv w "zammad_username" in
        let password := getenv w "zammad_password" in
        match ZammadAPI_init w url username password with
        | Some e => raise e
        | None => ret {| url := url; username := username; password := password |}
        end
  end.

(** [items.extend(page)], or [items.append(page)] on [TypeError] *)
Definition extend_or_append (items : list value) (page : value) : list value :=
  match py_iter page with
  | Some xs => items ++ xs
  | None => items ++ [page]
  end.

(** The [while] loop of [_collect_pages]: as long as the page has a callable
    [next_page], call it; a falsy result ends the loop.  A cursor is a finite
    chain of pages, so the loop is a recursion on the page. *)
Fixpoint collect_next (page : value) (items : list value) : M (list value) :=
  match page with
  | VObj _ _ (Returns page') _ =>
      _ <- emit next_page ;;
      if truthy page' then collect_next page' (extend_or_append items page')
      else ret items
  | VObj _ _ (Raises e) _ =>
      _ <- emit next_page ;;
      raise e
  | _ => ret items
  end.

Definition _collect_pages (first_page : value) : M (list value) :=
  if negb (truthy first_page) then ret []
  else collect_next first_page (extend_or_append [] first_page).

(** A computation that touches nothing outside. *)
Definition lift {A} (r : outcome A) : M A := fun h => (r, h).

(** [v.get(k, default)]: only mappings have the method. *)
Definition py_get (v : value) (k : string) (default : value) : outcome value :=
  match v with
  | VDict kvs =>
      Return (match dict_find k kvs with Some x => x | None => default end)
  | _ => Raise (mkExn AttributeError "object has no attribute 'get'")
  end.

Definition get_all_tickets : M (list value) :=
  client <- init_zammad_client ;;
  page <- call ticket_all ;;
  _collect_pages page.

Definition get_ticket (ticket_id : Z) : M value :=
  client <- init_zammad_client ;;
  call (ticket_find ticket_id).

(** [[a for a in all_articles if a.get("ticket_id") == ticket_id]] *)
Fixpoint filter_by_ticket (all_articles : list value) (ticket_id : Z)
  : outcome (list value) :=
  match all_articles with
  | [] => Return []
  | a :: rest =>
      match py_get a "ticket_id" VNone with
      | Raise e => Raise e
      | Return t =>
          match filter_by_ticket rest ticket_id with
          | Raise e => Raise e
          | Return kept => Return (if eq_int t ticket_id then a :: kept else kept)
          end
      end
  end.

Definition get_ticket_articles (ticket_id : Z) : M (list value) :=
  client <- init_zammad_client ;;
  page <- try_except_TypeError (call ticket_article_all) (call ticket_article_all) ;;
  all_articles <- _collect_pages page ;;
  lift (filter_by_ticket all_articles ticket_id).

Definition get_all_articles : M (list value) :=
  client <- init_zammad_client ;;
  page <- call ticket_article_all ;;
  _collect_pages page.

(** *** Attachment discovery *)

(** First strategy: the [attachments] field of the article fetched by ticket
    and article id.  [Some att] stands for [return att]. *)
Definition embedded_attachments (ticket_id : Z) (article_id : value)
  : M (option value) :=
  try_except
    (art <- call (ticket_article_find_kw ticket_id article_id) ;;
     if truthy art then
       let att :=
         match art with
         | VDict kvs =>
             match dict_find "attachments" kvs with Some x => x | None => VNone end
         | _ => VNone
         end in
       if truthy att then ret (Some att) else ret None
     else ret None)
    (fun _ => ret None).

(** Second strategy: the dedicated listing endpoint, when the client has it. *)
Definition listed_attachments (ticket_id : Z) (article_id : value)
  : M (option value) :=
  try_except
    (if client_has w "ticket_article_attachment" then
       page <- try_except_TypeError
                 (call (ticket_article_attachment_all_kw ticket_id article_id))
                 (try_except
                    (call (ticket_article_attachment_all_pos ticket_id article_id))
                    (fun _ => ret VNone)) ;;
       if truthy page then
         attachments <- _collect_pages page ;;
         ret (Some (VList attachments))
       else ret None
     else ret None)
    (fun _ => ret None).

(** [v] itself when it is a mapping, else [{"id": v, "filename": f"attachment_{v}"}] *)
Definition attachment_record (v : value) : value :=
  if is_dict v then v
  else VDict [("id", v); ("filename", VStr (String.append "attachment_" (py_str v)))].

(** The [for key in (...)] loop over the legacy field names of [art2]. *)
Fixpoint legacy_fields (keys : list string) (art2 : list (string * value))
  : option value :=
  match keys with
  | [] => None
  | key :: rest =>
      match dict_find key art2 with
      | Some vals =>
          if truthy vals then
            match vals with
            | VList vs => Some (VList (map attachment_record vs))
            | _ => legacy_fields rest art2
            end
          else legacy_fields rest art2
      | None => legacy_fields rest art2
      end
  end.

(** Third strategy: the article fetched by its id alone. *)
Definition legacy_attachments (article_id : value) : M (option value) :=
  try_except
    (art2 <- call (ticket_article_find_pos article_id) ;;
     match art2 with
     | VDict kvs =>
         ret (legacy_fields ["attachment_ids"; "attachments_ids"; "attachments"] kvs)
     | _ => ret None
     end)
    (fun _ => ret None).

Definition list_article_attachments (ticket_id : Z) (article_id : value) : M value :=
  client <- init_zammad_client ;;
  r1 <- embedded_attachments ticket_id article_id ;;
  match r1 with
  | Some att => ret att
  | None =>
      r2 <- listed_attachments ticket_id article_id ;;
      match r2 with
      | Some attachments => ret attachments
      | None =>
          r3 <- legacy_attachments article_id ;;
          match r3 with
          | Some out => ret out
          | None => ret (VList [])
          end
      end
  end.

(** *** The consolidated ticket view *)

(** Equality of two keys of a Python dict, for the hashable values: [None],
    numbers (a bool is the integer 0 or 1), strings, byte buffers.  Objects
    have no identity here: two occurrences count as two objects. *)
Definition key_eqb (a b : value) : bool :=
  match a, b with
  | VNone, VNone => true
  | VBool x, VBool y => Bool.eqb x y
  | VBool x, VInt z => (if x then 1 else 0) =? z
  | VInt z, VBool y => z =? (if y then 1 else 0)
  | VInt x, VInt y => x =? y
  | VStr x, VStr y => String.eqb x y
  | VBytes x, VBytes y => String.eqb (string_of_list_byte x) (string_of_list_byte y)
  | _, _ => false
  end.

(** [m[k] = v] on a dict with arbitrary keys, in insertion order: the value
    under an equal key is replaced (the key that is there stays), else the
    entry is added at the end. *)
Fixpoint map_set (k : value) (v : value) (m : list (value * value))
  : list (value * value) :=
  match m with
  | [] => [(k, v)]
  | (k', v') :: rest =>
      if key_eqb k k' then (k', v) :: rest else (k', v') :: map_set k v rest
  end.

(** [m.get(k)] *)
Fixpoint map_find (k : value) (m : list (value * value)) : option value :=
  match m with
  | [] => None
  | (k', v) :: rest => if key_eqb k k' then Some v else map_find k rest
  end.

(** The dict [get_ticket_details] returns; [attachments] is the dict
    [attachments_map], its entries in insertion order. *)
Record TicketDetail := {
  ticket : value;
  articles : list value;
  attachments : list (value * value)
}.

(** Lines 114-118: the ticket, or the placeholder. *)
Definition ticket_or_placeholder (ticket_id : Z) : M value :=
  try_except (get_ticket ticket_id)
    (fun e => ret (VDict [("id", VInt ticket_id); ("error", VStr (exn_msg e))])).

(** Lines 122-123: all articles, filtered. *)
Definition filtered_articles (ticket_id : Z) : M (list value) :=
  all_articles <- get_all_articles ;;
  lift (filter_by_ticket all_articles ticket_id).

(** Lines 121-129: all articles filtered, else the ticket-scoped call, else
    nothing. *)
Definition articles_or_empty (ticket_id : Z) : M (list value) :=
  try_except (filtered_articles ticket_id)
    (fun _ =>
       try_except (get_ticket_articles ticket_id) (fun _ => ret [])).

(** Lines 133-139: the loop over the articles, for a discovery function
    [discover].  Assigning under an unhashable key raises [TypeError]. *)
Fixpoint attachments_loop (discover : value -> M value) (articles : list value)
    (attachments_map : list (value * value)) : M (list (value * value)) :=
  match articles with
  | [] => ret attachments_map
  | art :: rest =>
      aid <- lift (py_get art "id" VNone) ;;
      atts <- try_except (discover aid) (fun _ => ret (VList [])) ;;
      if hashable aid
      then attachments_loop discover rest (map_set aid atts attachments_map)
      else raise (mkExn TypeError "unhashable type")
  end.

Definition get_ticket_details (ticket_id : Z) (include_attachments : bool)
  : M TicketDetail :=
  client <- init_zammad_client ;;
  ticket <- ticket_or_placeholder ticket_id ;;
  articles <- articles_or_empty ticket_id ;;
  attachments_map <-
    (if include_attachments
     then attachments_loop (list_article_attachments ticket_id) articles []
     else ret []) ;;
  ret {| ticket := ticket; articles := articles; attachments := attachments_map |}.

(** *** Updates *)

(** [try: client.ticket.update(id=..., params=...)
     except TypeError: client.ticket.update(ticket_id, params)] *)
Definition ticket_update (ticket_id : Z) (params : value) : M value :=
  try_except_TypeError
    (call (ticket_update_kw ticket_id params))
    (call (ticket_update_pos ticket_id params)).

Definition set_ticket_state (ticket_id : Z) (state : option string)
    (state_id : option Z) : M value :=
  client <- init_zammad_client ;;
  let params := [] in
  let params :=
    match state_id with
    | Some i => dict_set "state_id" (VInt i) params
    | None => params
    end in
  let params :=
    match state with
    | Some s => dict_set "state" (VStr s) params
    | None => params
    end in
  if negb (truthy (VDict params))
  then raise (mkExn ValueError "Either state or state_id must be provided")
  else ticket_update ticket_id (VDict params).

(** The [for p in priorities] loop: the id of the first priority whose name
    matches, [None] when there is none. *)
Fixpoint match_priority (priorities : list value) (priority_name : string)
  : outcome value :=
  match priorities with
  | [] => Return VNone
  | p :: rest =>
      match py_get p "name" (VStr EmptyString) with
      | Raise e => Raise e
      | Return n =>
          if String.eqb (lower (py_str n)) (lower (py_str (VStr priority_name)))
          then py_get p "id" VNone
          else match_priority rest priority_name
      end
  end.

(** Lines 177-185: the id of the priority called [priority_name]; [None]
    when there is none or when anything goes wrong. *)
Definition resolve_priority (priority_name : string) : M value :=
  try_except
    (page <- call ticket_priority_all ;;
     priorities <- _collect_pages page ;;
     lift (match_priority priorities priority_name))
    (fun _ => ret VNone).

Definition set_ticket_priority (ticket_id : Z) (priority_id : option Z)
    (priority_name : option string) : M value :=
  client <- init_zammad_client ;;
  match priority_id, priority_name with
  | None, None =>
      raise (mkExn ValueError "Either priority_id or priority_name must be provided")
  | _, _ =>
      priority_id <-
        match priority_id, priority_name with
        | None, Some name => resolve_priority name
        | Some i, _ => ret (VInt i)
        | None, None => ret VNone
        end ;;
      match priority_id with
      | VNone =>
          raise (mkExn ValueError
            "Could not resolve priority id; provide a valid priority_id or priority_name")
      | _ => ticket_update ticket_id (VDict [("priority_id", priority_id)])
      end
  end.

(** *** Call shapes tried in turn *)

(** The loops of [send_message_to_ticket] and [download_attachment]: call the
    candidates in order, stop at the first truthy response, remember the last
    exception. *)
Fixpoint first_truthy (callers : list (M value)) (last_error : option exn)
  : M (option value * option exn) :=
  match callers with
  | [] => ret (None, last_error)
  | c :: rest =>
      fun h =>
        match c h with
        | (Return resp, h') =>
            if truthy resp then (Return (Some resp, last_error), h')
            else first_truthy rest last_error h'
        | (Raise e, h') => first_truthy rest (Some e) h'
        end
  end.

(** [f"{last_error}"] *)
Definition str_last_error (last_error : option exn) : string :=
  match last_error with
  | None => "None"
  | Some e => exn_msg e
  end.

Definition message_params (ticket_id : Z) (message : string) (subject : option string)
    (author_id : option Z) (internal : bool) (article_type : option string)
    (additional_params : option (list (string * value))) : list (string * value) :=
  let params :=
    [("ticket_id", VInt ticket_id); ("body", VStr message); ("internal", VBool internal)] in
  let params :=
    match subject with Some s => dict_set "subject" (VStr s) params | None => params end in
  let params :=
    match author_id with Some a => dict_set "author_id" (VInt a) params | None => params end in
  let params :=
    match article_type with Some t => dict_set "type" (VStr t) params | None => params end in
  match additional_params with
  | Some extra => if truthy (VDict extra) then dict_update params extra else params
  | None => params
  end.

(** The [callers] list of [send_message_to_ticket]. *)
Definition message_callers (ticket_id : Z) (params : value) : list (M value) :=
  (if client_has w "ticket_article" then
     [ call (ticket_article_create_kw params);
       call (ticket_article_create_pos params);
       call (ticket_article_create_id_pos ticket_id params);
       call (ticket_article_create_expanded params) ]
   else [])
  ++ [ (if client_has w "ticket"
        then call (ticket_update_kw ticket_id (VDict [("article", params)]))
        else ret VNone);
       (if client_has w "ticket"
        then call (ticket_update_pos ticket_id (VDict [("article", params)]))
        else ret VNone) ].

Definition send_message_to_ticket (ticket_id : Z) (message : string)
    (subject : option string) (author_id : option Z) (internal : bool)
    (article_type : option string)
    (additional_params : option (list (string * value))) : M value :=
  client <- init_zammad_client ;;
  let params :=
    VDict (message_params ticket_id message subject author_id internal
             article_type additional_params) in
  r <- first_truthy (message_callers ticket_id params) None ;;
  match r with
  | (Some resp, _) => ret resp
  | (None, last_error) =>
      raise (mkExn RuntimeError
        (String.append "Could not create ticket article. Last error: "
           (str_last_error last_error)))
  end.

(** *** Download *)

(** [json.dumps(resp).encode()] *)
Definition json_bytes (resp : value) : outcome value :=
  match json_dumps w resp with
  | Return s => Return (VBytes (encode s))
  | Raise e => Raise e
  end.

(** Lines 293-312: the bytes of a response. *)
Definition response_data (resp : value) : outcome value :=
  match resp with
  | VBytes bs => Return (VBytes bs)
  | VDict kvs =>
      match dict_find "data" kvs with
      | Some d =>
          match b64decode w d with
          | Return bs => Return (VBytes bs)
          | Raise _ => json_bytes resp
          end
      | None =>
          match dict_find "file" kvs with
          | Some (VBytes bs) => Return (VBytes bs)
          | _ => json_bytes resp
          end
      end
  | VObj _ _ _ (Returns data) => Return data
  | VObj _ _ _ (Raises e) => Raise e
  | _ =>
      match json_bytes resp with
      | Return data => Return data
      | Raise _ => Return (VBytes [])
      end
  end.

(** The [callers] list of [download_attachment]. *)
Definition download_callers (attachment_id ticket_id article_id : Z) : list (M value) :=
  (if client_has w "ticket_article_attachment" then
     [ call (ticket_article_attachment_download_kw attachment_id ticket_id article_id);
       call (ticket_article_attachment_download_pos attachment_id ticket_id article_id) ]
   else [])
  ++ (if client_has w "attachment" then
        [ call (attachment_download_kw attachment_id);
          call (attachment_download_pos attachment_id) ]
      else [])
  ++ [ if client_has w "download" then call client_download else ret VNone ].

(** Lines 314-316: create the directory, open the file for writing (which
    empties it) and write [data], which must be a byte buffer. *)
Definition write_bytes (dest_path : string) (data : value) : M unit :=
  _ <- emit (mkdir_parents dest_path) ;;
  match data with
  | VBytes bs => emit (write_file dest_path bs)
  | _ =>
      _ <- emit (write_file dest_path []) ;;
      raise (mkExn TypeError "a bytes-like object is required")
  end.

Definition download_attachment (attachment_id ticket_id article_id : Z)
    (dest_path : string) : M string :=
  client <- init_zammad_client ;;
  r <- first_truthy (download_callers attachment_id ticket_id article_id) None ;;
  match r with
  | (None, last_error) =>
      raise (mkExn RuntimeError
        (String.append "No download method returned data. Last error: "
           (str_last_error last_error)))
  | (Some resp, _) =>
      data <- lift (response_data resp) ;;
      _ <- write_bytes dest_path data ;;
      ret dest_path
  end.

End Adapter.

(** ** Reference models of the library functions

    Used to run the adapter on concrete inputs.  The general statements below
    hold for every [World], whatever its library functions do. *)

Definition b64_value (c : ascii) : option N :=
  let n := N_of_ascii c in
  if ((65 <=? n) && (n <=? 90))%N then Some (n - 65)%N
  else if ((97 <=? n) && (n <=? 122))%N then Some (n - 71)%N
  else if ((48 <=? n) && (n <=? 57))%N then Some (n + 4)%N
  else if (n =? 43)%N then Some 62%N
  else if (n =? 47)%N then Some 63%N
  else None.

(** The lenient decoder of [binascii.a2b_base64]: characters outside the
    alphabet are skipped, a complete pad sequence ends the input, and a
    dangling quantum is an error ([None]). *)
Fixpoint a2b_base64 (s : string) (quad_pos : nat) (leftchar : N) (pads : nat)
    (out : list N) : option (list N) :=
  match s with
  | EmptyString => if Nat.eqb quad_pos 0 then Some out else None
  | String c rest =>
      if Ascii.eqb c "=" then
        if Nat.leb 2 quad_pos then
          if Nat.leb 4 (quad_pos + S pads) then Some out
          else a2b_base64 rest quad_pos leftchar (S pads) out
        else a2b_base64 rest quad_pos leftchar pads out
      else
        match b64_value c with
        | None => a2b_base64 rest quad_pos leftchar pads out
        | Some v =>
            match quad_pos with
            | O => a2b_base64 rest 1 v 0 out
            | S O =>
                a2b_base64 rest 2 (N.land v 15) 0
                  (out ++ [N.lor (N.shiftl leftchar 2) (N.shiftr v 4)])
            | S (S O) =>
                a2b_base64 rest 3 (N.land v 3) 0
                  (out ++ [N.lor (N.shiftl leftchar 4) (N.shiftr v 2)])
            | _ =>
                a2b_base64 rest 0 0%N 0
                  (out ++ [N.lor (N.shiftl leftchar 6) v])
            end
        end
  end.

Definition byte_of_N (n : N) : byte := byte_of_ascii (ascii_of_N n).

Fixpoint is_ascii (s : string) : bool :=
  match s with
  | EmptyString => true
  | String c rest => (N_of_ascii c <? 128)%N && is_ascii rest
  end.

Definition string_of_bytes (bs : list byte) : string :=
  string_of_list_byte bs.

Definition std_b64decode (v : value) : outcome (list byte) :=
  let decode s :=
    match a2b_base64 s 0 0%N 0 [] with
    | Some out => Return (map byte_of_N out)
    | None => Raise (mkExn (OtherError "binascii.Error") "Incorrect padding")
    end in
  match v with
  | VStr s =>
      if is_ascii s then decode s
      else Raise (mkExn ValueError "string argument should contain only ASCII characters")
  | VBytes bs => decode (string_of_bytes bs)
  | _ => Raise (mkExn TypeError "argument should be a bytes-like object or ASCII string")
  end.

Definition hex_digit (n : N) : ascii :=
  if (n <? 10)%N then ascii_of_N (48 + n) else ascii_of_N (87 + n).

(** One character inside a JSON string, with [ensure_ascii]. *)
Definition json_escape (c : ascii) : string :=
  let n := N_of_ascii c in
  if (n =? 34)%N then String "092" (String "034" EmptyString)
  else if (n =? 92)%N then String "092" (String "092" EmptyString)
  else if (n =? 10)%N then "\n"
  else if (n =? 13)%N then "\r"
  else if (n =? 9)%N then "\t"
  else if (n =? 8)%N then "\b"
  else if (n =? 12)%N then "\f"
  else if ((32 <=? n) && (n <=? 126))%N then String c EmptyString
  else String.append "\u00"
         (String (hex_digit (N.shiftr n 4)) (String (hex_digit (N.land n 15)) EmptyString)).

Fixpoint json_string_body (s : string) : string :=
  match s with
  | EmptyString => EmptyString
  | String c rest => String.append (json_escape c) (json_string_body rest)
  end.

Definition json_quote (s : string) : string :=
  String.append (String.append (String "034" EmptyString) (json_string_body s)) (String "034" EmptyString).

Fixpoint join (sep : string) (parts : list string) : string :=
  match parts with
  | [] => EmptyString
  | [p] => p
  | p :: rest => String.append p (String.append sep (join sep rest))
  end.

(** [json.dumps] with its defaults; [None] where it raises [TypeError]. *)
Fixpoint json_text (v : value) : option string :=
  match v with
  | VNone => Some "null"
  | VBool true => Some "true"
  | VBool false => Some "false"
  | VInt z => Some (str_of_Z z)
  | VStr s => Some (json_quote s)
  | VList xs =>
      let fix items (xs : list value) : option (list string) :=
        match xs with
        | [] => Some []
        | x :: rest =>
            match json_text x, items rest with
            | Some a, Some b => Some (a :: b)
            | _, _ => None
            end
        end in
      match items xs with
      | Some parts => Some (String.append "[" (String.append (join ", " parts) "]"))
      | None => None
      end
  | VDict kvs =>
      let fix members (kvs : list (string * value)) : option (list string) :=
        match kvs with
        | [] => Some []
        | (k, x) :: rest =>
            match json_text x, members rest with
            | Some a, Some b =>
                Some (String.append (json_quote k) (String.append ": " a) :: b)
            | _, _ => None
            end
        end in
      match members kvs with
      | Some parts => Some (String.append "{" (String.append (join ", " parts) "}"))
      | None => None
      end
  | VBytes _ | VObj _ _ _ _ => None
  end.

Definition std_json_dumps (v : value) : outcome string :=
  match json_text v with
  | Some s => Return s
  | None => Raise (mkExn TypeError "Object is not JSON serializable")
  end.

(** The configuration check of the library's constructor, as [zammad_py]
    makes it for a client without token: a username and a password are
    required. *)
Definition check_config (url : string) (username password : option string)
  : option exn :=
  let missing (x : option string) :=
    match x with
    | None => true
    | Some s => String.eqb s EmptyString
    end in
  if String.eqb url EmptyString
  then Some (mkExn (OtherError "ConfigException") "Missing url in config")
  else if missing username
  then Some (mkExn (OtherError "ConfigException") "Missing username in config")
  else if missing password
  then Some (mkExn (OtherError "ConfigException") "Missing password in config")
  else None.

(** A world from its environment, the attributes of its client and the
    answers of its backend, with the reference library functions. *)
Definition world_of (env : string -> option string) (has : string -> bool)
    (answers : trace -> event -> outcome value) : World :=
  {| getenv := env;
     ZammadAPI_init := check_config;
     client_has := has;
     respond := answers;
     py_repr := fun _ => "<object>";
     b64decode := std_b64decode;
     json_dumps := std_json_dumps |}.

(** ** Vocabulary of the statements *)

(** The base URL is set and not empty: [init_zammad_client] passes its guard. *)
Definition url_set (w : World) : bool :=
  match getenv w "zammad_url" with
  | Some url_base => negb (String.eqb url_base EmptyString)
  | None => false
  end.

(** [init_zammad_client] returns a client: the base URL passes the guard and
    the library's constructor accepts the configuration. *)
Definition configured (w : World) : bool :=
  match init_zammad_client w [] with
  | (Return _, _) => true
  | (Raise _, _) => false
  end.

(** What [init_zammad_client] raises. *)
Definition not_set : exn :=
  mkExn EnvironmentError "Environment variable `zammad_url` is not set".

Fixpoint all_slashes (s : string) : bool :=
  match s with
  | EmptyString => true
  | String c rest => Ascii.eqb c "/" && all_slashes rest
  end.

Fixpoint ends_with_slash (s : string) : bool :=
  match s with
  | EmptyString => false
  | String c EmptyString => Ascii.eqb c "/"
  | String _ rest => ends_with_slash rest
  end.

(** The items one page contributes. *)
Definition page_items (page : value) : list value := extend_or_append [] page.

(** [cursor first pages]: [first] is the first page fetched, [pages] are the
    truthy pages met in order, each exposing [next_page], and the [next_page]
    of the last one returns a falsy result (for no page at all, [first] itself
    is falsy). *)
Inductive cursor : value -> list value -> Prop :=
| cursor_end (first : value) :
    truthy first = false -> cursor first []
| cursor_page (it : option (list value)) (next : value) (rd : attr)
    (pages : list value) :
    cursor next pages ->
    cursor (VObj true it (Returns next) rd) (VObj true it (Returns next) rd :: pages).

(** Environments of the examples: a base URL with credentials, a base URL
    alone, nothing. *)
Definition env_url (url_base : string) (name : string) : option string :=
  if String.eqb name "zammad_url" then Some url_base
  else if String.eqb name "zammad_username" then Some "agent@example.org"
  else if String.eqb name "zammad_password" then Some "secret"
  else None.

Definition env_url_only (url_base : string) (name : string) : option string :=
  if String.eqb name "zammad_url" then Some url_base else None.

Definition no_env (name : string) : option string := None.

Definition no_answer (h : trace) (ev : event) : outcome value :=
  Raise (mkExn (OtherError "ConnectionError") "backend unreachable").

(** Three pages: a list of two, one object that is not iterable, a list of one. *)
Definition page3 : value :=
  VObj true (Some [VInt 4]) (Returns (VList [])) Absent.
Definition page2 : value :=
  VObj true None (Returns page3) Absent.
Definition page1 : value :=
  VObj true (Some [VInt 1; VInt 2]) (Returns page2) Absent.


(** The update reached the backend: the keyword call was made and, when it
    was given up for the positional one, that one after it. *)
Definition update_sent (ticket_id : Z) (params : value) (h h' : trace) : Prop :=
  h' = h ++ [ticket_update_kw ticket_id params]
  \/ h' = h ++ [ticket_update_kw ticket_id params; ticket_update_pos ticket_id params].

Definition state_missing : exn :=
  mkExn ValueError "Either state or state_id must be provided".

Definition could_not_resolve : exn :=
  mkExn ValueError
    "Could not resolve priority id; provide a valid priority_id or priority_name".

(** Lines 178-179: all priorities, through the Page Collector. *)
Definition list_priorities (w : World) : M (list value) :=
  page <- call w ticket_priority_all ;;
  _collect_pages page.

(** The name of priority [p] equals [priority_name], case ignored. *)
Definition name_matches (w : World) (priority_name : string) (p : value) : bool :=
  match p with
  | VDict kvs =>
      String.eqb
        (lower (py_str w (match dict_find "name" kvs with
                          | Some n => n
                          | None => VStr EmptyString
                          end)))
        (lower priority_name)
  | _ => false
  end.

(** An example backend: two priorities, updates echo the ticket id, three
    articles of which two belong to ticket 5, and every article fetched by
    ticket and article id carries one attachment while the listing endpoint
    knows another. *)
Definition desk (h : trace) (ev : event) : outcome value :=
  match ev with
  | ticket_priority_all =>
      Return (VList [VDict [("id", VInt 1); ("name", VStr "low")];
                     VDict [("id", VInt 3); ("name", VStr "urgent")]])
  | ticket_update_kw id _ => Return (VDict [("id", VInt id)])
  | ticket_find id => Return (VDict [("id", VInt id); ("title", VStr "Printer")])
  | ticket_article_all =>
      Return (VList [VDict [("id", VInt 7); ("ticket_id", VInt 5)];
                     VDict [("id", VInt 9); ("ticket_id", VInt 6)];
                     VDict [("id", VInt 8); ("ticket_id", VInt 5)]])
  | ticket_article_find_kw _ _ =>
      Return (VDict [("id", VInt 7);
                     ("attachments",
                      VList [VDict [("id", VInt 1); ("filename", VStr "a.png")]])])
  | ticket_article_attachment_all_kw _ _ =>
      Return (VList [VDict [("id", VInt 2); ("filename", VStr "b.png")]])
  | _ => Raise (mkExn (OtherError "HTTPError") "404")
  end.

Definition desk_world : World :=
  world_of (env_url "https://desk.example.org/") (fun _ => true) desk.

(** The example backend with no [zammad_url] in the environment. *)
Definition unconfigured_world : World :=
  world_of no_env (fun _ => true) desk.

(** What [get_ticket_details] puts for a ticket that could not be fetched. *)
Definition placeholder (ticket_id : Z) (e : exn) : value :=
  VDict [("id", VInt ticket_id); ("error", VStr (exn_msg e))].

(** [art.get("id")] for an article that is a mapping. *)
Definition article_id (art : value) : value :=
  match art with
  | VDict kvs => match dict_find "id" kvs with Some x => x | None => VNone end
  | _ => VNone
  end.

(** [entries discover arts h m m' h']: running the loop of
    [get_ticket_details] over the articles [arts] from history [h] and dict
    [m] ends in history [h'] with dict [m'].  For each article in turn, [discover] is
    run on the article's id from the history reached so far, and what it
    returns, or the empty list if it raises, is assigned under that id. *)
Inductive entries (discover : value -> M value)
  : list value -> trace -> list (value * value) -> list (value * value) -> trace -> Prop :=
| entries_done (h : trace) (m : list (value * value)) :
    entries discover [] h m m h
| entries_found (art : value) (arts : list value) (h h1 h' : trace) (atts : value)
    (m m' : list (value * value)) :
    discover (article_id art) h = (Return atts, h1) ->
    entries discover arts h1 (map_set (article_id art) atts m) m' h' ->
    entries discover (art :: arts) h m m' h'
| entries_failed (art : value) (arts : list value) (h h1 h' : trace) (e : exn)
    (m m' : list (value * value)) :
    discover (article_id art) h = (Raise e, h1) ->
    entries discover arts h1 (map_set (article_id art) (VList []) m) m' h' ->
    entries discover (art :: arts) h m m' h'.

(** A backend whose ticket fetch answers [None]. *)
Definition null_ticket (h : trace) (ev : event) : outcome value :=
  match ev with
  | ticket_find _ => Return VNone
  | _ => Raise (mkExn (OtherError "HTTPError") "404")
  end.

(** A backend whose only article of ticket 5 has a list for an id. *)
Definition odd_ids (h : trace) (ev : event) : outcome value :=
  match ev with
  | ticket_article_all =>
      Return (VList [VDict [("id", VList [VInt 1]); ("ticket_id", VInt 5)]])
  | _ => Raise (mkExn (OtherError "HTTPError") "404")
  end.

(** The calls [send_message_to_ticket] may attempt, in the order of its
    [callers] list: four shapes of [ticket_article.create] when the client has
    [ticket_article], then two shapes of [ticket.update] with the article
    nested (without a [ticket] attribute those two candidates return [None]
    without calling anything). *)
Definition message_shapes (w : World) (ticket_id : Z) (params : value) : list event :=
  (if client_has w "ticket_article" then
     [ ticket_article_create_kw params;
       ticket_article_create_pos params;
       ticket_article_create_id_pos ticket_id params;
       ticket_article_create_expanded params ]
   else [])
  ++ (if client_has w "ticket" then
        [ ticket_update_kw ticket_id (VDict [("article", params)]);
          ticket_update_pos ticket_id (VDict [("article", params)]) ]
      else []).

(** Every call of [shapes], made in turn from history [h], raises or returns
    a falsy response. *)
Fixpoint all_fail (w : World) (h : trace) (shapes : list event) : bool :=
  match shapes with
  | [] => true
  | c :: rest =>
      match respond w h c with
      | Raise _ => true
      | Return r => negb (truthy r)
      end && all_fail w (h ++ [c]) rest
  end.

(** The last exception raised among the calls of [shapes]. *)
Fixpoint last_error_of (w : World) (h : trace) (shapes : list event)
    (last_error : option exn) : option exn :=
  match shapes with
  | [] => last_error
  | c :: rest =>
      last_error_of w (h ++ [c]) rest
        (match respond w h c with
         | Raise e => Some e
         | Return _ => last_error
         end)
  end.

(** A backend that rejects the first shape of [ticket_article.create],
    answers nothing to the second and accepts the third. *)
Definition picky (h : trace) (ev : event) : outcome value :=
  match ev with
  | ticket_article_create_kw _ =>
      Raise (mkExn TypeError "create() got an unexpected keyword argument")
  | ticket_article_create_pos _ => Return VNone
  | ticket_article_create_id_pos ticket_id _ =>
      Return (VDict [("id", VInt 11); ("ticket_id", VInt ticket_id)])
  | _ => Return (VDict [("id", VInt 12)])
  end.

Definition picky_world : World :=
  world_of (env_url "https://desk.example.org/") (fun _ => true) picky.

(** A backend whose dedicated download answers [resp]. *)
Definition download_world (resp : value) : World :=
  world_of (env_url "https://desk.example.org/") (fun _ => true)
    (fun h ev =>
       match ev with
       | ticket_article_attachment_download_kw _ _ _ => Return resp
       | _ => Raise (mkExn (OtherError "HTTPError") "404")
       end).

Definition dquote : string := String "034" EmptyString.

(** ** Vocabulary of the further properties *)

(** The page has a callable [next_page]. *)
Definition has_next_page (v : value) : bool :=
  match v with
  | VObj _ _ (Returns _) _ => true
  | VObj _ _ (Raises _) _ => true
  | _ => false
  end.

(** How many pages follow [v] through [next_page]. *)
Fixpoint chain_depth (v : value) : nat :=
  match v with
  | VObj _ _ (Returns page) _ => S (chain_depth page)
  | _ => O
  end.

(** [raising_cursor first n e]: [first] and the pages after it are truthy,
    and the [n]-th call of [next_page] raises [e]. *)
Inductive raising_cursor : value -> nat -> exn -> Prop :=
| raising_here (it : option (list value)) (e : exn) (rd : attr) :
    raising_cursor (VObj true it (Raises e) rd) 1 e
| raising_later (it : option (list value)) (next : value) (rd : attr)
    (n : nat) (e : exn) :
    truthy next = true ->
    raising_cursor next n e ->
    raising_cursor (VObj true it (Returns next) rd) (S n) e.

(** A cursor whose second page cannot be fetched. *)
Definition broken_page : value :=
  VObj true (Some [VInt 1; VInt 2])
    (Returns (VObj true (Some [VInt 3])
                (Raises (mkExn (OtherError "HTTPError") "502")) Absent))
    Absent.

(** [a.get("ticket_id")] for an article that is a mapping. *)
Definition ticket_id_of (a : value) : value :=
  match a with
  | VDict kvs => match dict_find "ticket_id" kvs with Some x => x | None => VNone end
  | _ => VNone
  end.

(** The article carries the ticket id [ticket_id]. *)
Definition belongs (ticket_id : Z) (a : value) : bool :=
  eq_int (ticket_id_of a) ticket_id.

Definition no_get : exn := mkExn AttributeError "object has no attribute 'get'".

(** A backend whose [ticket_article.all] rejects its first call with a
    [TypeError] and answers the second; the articles are those of [desk]. *)
Definition retried (h : trace) (ev : event) : outcome value :=
  match ev with
  | ticket_article_all =>
      match h with
      | [] => Raise (mkExn TypeError "all() missing 1 required positional argument")
      | _ => desk h ev
      end
  | _ => desk h ev
  end.

(** A backend that answers every listing with one mapping instead of a page. *)
Definition single_ticket (h : trace) (ev : event) : outcome value :=
  match ev with
  | ticket_all => Return (VDict [("id", VInt 5); ("title", VStr "Printer")])
  | ticket_article_all => Return (VList [VDict [("id", VInt 7); ("ticket_id", VInt 5)]; VInt 3])
  | _ => Raise (mkExn (OtherError "HTTPError") "404")
  end.

(** A backend whose ticket listing is the three-page cursor [page1]. *)
Definition paged (h : trace) (ev : event) : outcome value :=
  match ev with
  | ticket_all => Return page1
  | ticket_article_all => Return page1
  | _ => Raise (mkExn (OtherError "HTTPError") "404")
  end.

Definition either_missing : exn :=
  mkExn ValueError "Either priority_id or priority_name must be provided".

(** A backend whose first priority called [urgent] has no id, the second has. *)
Definition half_listed (h : trace) (ev : event) : outcome value :=
  match ev with
  | ticket_priority_all =>
      Return (VList [VDict [("name", VStr "urgent")];
                     VDict [("id", VInt 3); ("name", VStr "Urgent")]])
  | _ => desk h ev
  end.

(** A backend that rejects keyword updates with a [TypeError] and accepts
    positional ones. *)
Definition positional_only (h : trace) (ev : event) : outcome value :=
  match ev with
  | ticket_update_kw _ _ =>
      Raise (mkExn TypeError "update() got an unexpected keyword argument")
  | ticket_update_pos id _ => Return (VDict [("id", VInt id)])
  | _ => Raise (mkExn (OtherError "HTTPError") "404")
  end.




(** A client with none of the attributes the adapter probes. *)
Definition bare_world : World :=
  world_of (env_url "https://desk.example.org/") (fun _ => false) desk.

(** A backend whose articles embed nothing: the listing endpoint answers by
    position only, and the article fetched by id alone carries legacy ids. *)
Definition legacy_desk (h : trace) (ev : event) : outcome value :=
  match ev with
  | ticket_article_find_kw _ _ => Return (VDict [("id", VInt 7); ("attachments", VList [])])
  | ticket_article_attachment_all_kw _ _ =>
      Raise (mkExn TypeError "all() got an unexpected keyword argument")
  | ticket_article_attachment_all_pos _ (VInt 7) =>
      Return (VList [VDict [("id", VInt 2); ("filename", VStr "b.png")]])
  | ticket_article_find_pos _ =>
      Return (VDict [("attachments_ids", VStr "3,4");
                     ("attachment_ids", VList [VInt 3; VDict [("id", VInt 4)]])])
  | _ => Raise (mkExn (OtherError "HTTPError") "404")
  end.

(** The same backend behind a client without the listing attribute. *)
Definition legacy_world : World :=
  world_of (env_url "https://desk.example.org/")
    (fun name => negb (String.eqb name "ticket_article_attachment")) legacy_desk.

Definition listing_world : World :=
  world_of (env_url "https://desk.example.org/") (fun _ => true) legacy_desk.

Definition is_find_kw (ev : event) : bool :=
  match ev with
  | ticket_article_find_kw _ _ => true
  | _ => false
  end.

(** A backend whose two articles of ticket 5 have the same id; the article
    fetched by ticket and article id embeds [[2]] the first time and [[3]]
    afterwards. *)
Definition twin_ids (h : trace) (ev : event) : outcome value :=
  match ev with
  | ticket_find id => Return (VDict [("id", VInt id)])
  | ticket_article_all =>
      Return (VList [VDict [("id", VInt 7); ("ticket_id", VInt 5)];
                     VDict [("id", VInt 7); ("ticket_id", VInt 5)]])
  | ticket_article_find_kw _ _ =>
      Return (VDict [("attachments",
                      VList [VInt (if existsb is_find_kw h then 3 else 2)])])
  | _ => Raise (mkExn (OtherError "HTTPError") "404")
  end.
(** * Properties *)

Lemma rstrip_slash_spec (s : string) :
  exists slashes,
    s = String.append (rstrip_slash s) slashes
    /\ all_slashes slashes = true
    /\ ends_with_slash (rstrip_slash s) = false.
Proof.
  induction s as [|c s IH].
  - exists EmptyString. repeat split.
  - destruct IH as (t & Hs & Ht & He). simpl.
    destruct (rstrip_slash s) as [|c' r] eqn:Hr.
    + simpl in Hs. subst t.
      destruct (Ascii.eqb c "/") eqn:Hc.
      * apply Ascii.eqb_eq in Hc. subst c.
        exists (String "/" s). simpl. rewrite Ht. repeat split.
      * exists s. simpl. rewrite Hc. repeat split. exact Ht.
    + exists t. split; [|split].
      * simpl. simpl in Hs. now rewrite <- Hs.
      * exact Ht.
      * exact He.
Qed.

Lemma init_configured (w : World) :
  configured w = true ->
  exists client, forall h, init_zammad_client w h = (Return client, h).
Proof.
  unfold configured, init_zammad_client. intros H.
  destruct (getenv w "zammad_url") as [u|]; [|discriminate].
  destruct (String.eqb u EmptyString); [discriminate|].
  destruct (ZammadAPI_init w _ _ _); [discriminate|].
  eexists. intros h. reflexivity.
Qed.

(** C9 (as amended).  [init_zammad_client] raises exactly when [zammad_url]
    is absent, is the empty string, or the library's constructor raises on
    the arguments it is given.  For an absent or empty [zammad_url] it raises
    its own [EnvironmentError].  Otherwise it hands to the constructor the base
    URL without its trailing slashes followed by [/api/v1/], and the username
    and the password as read, absent or not, with no check of its own: it
    returns the client when the constructor accepts them and raises what the
    constructor raises when it does not. *)
Theorem init_zammad_client_spec (w : World) (h : trace) :
  ((exists e h', init_zammad_client w h = (Raise e, h'))
   <-> (getenv w "zammad_url" = None
        \/ getenv w "zammad_url" = Some EmptyString
        \/ exists url_base e,
             getenv w "zammad_url" = Some url_base
             /\ ZammadAPI_init w (String.append (rstrip_slash url_base) "/api/v1/")
                  (getenv w "zammad_username") (getenv w "zammad_password") = Some e))
  /\ (url_set w = false -> init_zammad_client w h = (Raise not_set, h))
  /\ (forall url_base,
        getenv w "zammad_url" = Some url_base -> url_base <> EmptyString ->
        exists slashes,
          url_base = String.append (rstrip_slash url_base) slashes
          /\ all_slashes slashes = true
          /\ ends_with_slash (rstrip_slash url_base) = false
          /\ (ZammadAPI_init w (String.append (rstrip_slash url_base) "/api/v1/")
                (getenv w "zammad_username") (getenv w "zammad_password") = None ->
              init_zammad_client w h =
                (Return {| url := String.append (rstrip_slash url_base) "/api/v1/";
                           username := getenv w "zammad_username";
                           password := getenv w "zammad_password" |}, h))
          /\ (forall e,
                ZammadAPI_init w (String.append (rstrip_slash url_base) "/api/v1/")
                  (getenv w "zammad_username") (getenv w "zammad_password") = Some e ->
                init_zammad_client w h = (Raise e, h))).
Proof.
  unfold init_zammad_client, url_set.
  destruct (getenv w "zammad_url") as [u|] eqn:Hu.
  - destruct (String.eqb u EmptyString) eqn:He.
    + apply String.eqb_eq in He. subst u.
      split; [split|split].
      * intros _. right. now left.
      * intros _. eexists. eexists. reflexivity.
      * intros _. reflexivity.
      * intros url_base [= <-] Hne. now elim Hne.
    + apply String.eqb_neq in He.
      split; [split|split].
      * intros (e & h' & H).
        destruct (ZammadAPI_init w _ _ _) as [e0|] eqn:Hz; [|discriminate H].
        right. right. exists u, e0. now split.
      * intros [H|[H|(u' & e & H & Hz)]]; [discriminate| |].
        -- inversion H. now elim He.
        -- injection H as <-. rewrite Hz. eexists. eexists. reflexivity.
      * intros H. discriminate H.
      * intros url_base [= <-] _.
        destruct (rstrip_slash_spec u) as (t & H1 & H2 & H3).
        exists t. split; [exact H1|]. split; [exact H2|]. split; [exact H3|].
        split.
        -- intros ->. reflexivity.
        -- intros e ->. reflexivity.
  - split; [split|split].
    + intros _. now left.
    + intros _. eexists. eexists. reflexivity.
    + intros _. reflexivity.
    + intros url_base H. discriminate H.
Qed.

(** C9, the claim as stated fails twice: a base URL that is present but empty
    makes [init_zammad_client] raise; and with the base URL set and no
    credentials, the constructor of the library refuses the configuration and
    its exception leaves [init_zammad_client]. *)
Lemma init_zammad_client_empty_url :
  getenv (world_of (env_url EmptyString) (fun _ => true) no_answer) "zammad_url"
    = Some EmptyString
  /\ init_zammad_client (world_of (env_url EmptyString) (fun _ => true) no_answer) []
     = (Raise not_set, [])
  /\ getenv (world_of (env_url_only "https://desk.example.org/") (fun _ => true) no_answer)
       "zammad_username" = None
  /\ init_zammad_client
       (world_of (env_url_only "https://desk.example.org/") (fun _ => true) no_answer) []
     = (Raise (mkExn (OtherError "ConfigException") "Missing username in config"), []).
Proof. repeat split. Qed.

(** C9 on an example: trailing slashes go and the credentials read are handed
    over; without credentials the outcome is the constructor's. *)
Lemma init_zammad_client_spec_witness :
  init_zammad_client (world_of (env_url "https://desk.example.org//") (fun _ => true) no_answer) []
  = (Return {| url := "https://desk.example.org/api/v1/";
               username := Some "agent@example.org"; password := Some "secret" |}, [])
  /\ init_zammad_client
       (world_of (env_url_only "https://desk.example.org//") (fun _ => true) no_answer) []
     = (Raise (mkExn (OtherError "ConfigException") "Missing username in config"), []).
Proof.
  split.
  - destruct (init_zammad_client_spec
                (world_of (env_url "https://desk.example.org//") (fun _ => true) no_answer) [])
      as (_ & _ & H).
    destruct (H "https://desk.example.org//" eq_refl) as (t & _ & _ & _ & E & _).
    + discriminate.
    + exact (E eq_refl).
  - destruct (init_zammad_client_spec
                (world_of (env_url_only "https://desk.example.org//") (fun _ => true)
                   no_answer) [])
      as (_ & _ & H).
    destruct (H "https://desk.example.org//" eq_refl) as (t & _ & _ & _ & _ & E).
    + discriminate.
    + exact (E _ eq_refl).
Defined.

(** ** Page Collector *)

Lemma extend_or_append_items (items : list value) (page : value) :
  extend_or_append items page = items ++ page_items page.
Proof.
  unfold page_items, extend_or_append.
  destruct (py_iter page); reflexivity.
Qed.

Lemma collect_next_cursor (first : value) (pages : list value) :
  cursor first pages ->
  forall p ps, pages = p :: ps ->
  forall items h,
    collect_next first items h =
      (Return (items ++ concat (map page_items ps)),
       h ++ repeat next_page (length pages)).
Proof.
  induction 1 as [first Hf | it next rd pages Hc IH]; intros p ps Hp items h.
  - discriminate Hp.
  - injection Hp as _ <-.
    cbn [collect_next]. unfold bind, emit.
    inversion Hc as [first' Hfalsy | it' next' rd' pages' Hc']; subst.
    + rewrite Hfalsy. unfold ret. cbn. now rewrite app_nil_r.
    + cbn [truthy]. cbv iota.
      rewrite (IH _ _ eq_refl), extend_or_append_items.
      cbn [map concat length repeat].
      now rewrite <- !app_assoc.
Qed.

(** C3.  When the pages of a cursor are [pages] (P of them, the [next_page]
    of the last one returning a falsy result), [_collect_pages] returns the
    items of the pages, page after page, each page's items in their order (a
    page that is not iterable counts as one item), and calls [next_page]
    exactly P times: with the fetch of the first page, P + 1 fetches. *)
Theorem collect_pages_exact (first : value) (pages : list value)
    (h : trace) :
  cursor first pages ->
  _collect_pages first h =
    (Return (concat (map page_items pages)), h ++ repeat next_page (length pages)).
Proof.
  intros Hc. unfold _collect_pages.
  destruct Hc as [first Hf | it next rd pages Hc].
  - rewrite Hf. cbn. now rewrite app_nil_r.
  - cbn [truthy negb].
    rewrite (collect_next_cursor _ _ (cursor_page it next rd pages Hc) _ _ eq_refl).
    now rewrite extend_or_append_items.
Qed.

(** C3 on three pages holding 2, 1 (not iterable) and 1 items: 4 items in
    order, three [next_page] calls. *)
Lemma collect_pages_exact_witness :
  cursor page1 [page1; page2; page3]
  /\ _collect_pages page1 [] =
       (Return [VInt 1; VInt 2; page2; VInt 4], [next_page; next_page; next_page]).
Proof.
  assert (Hc : cursor page1 [page1; page2; page3]).
  { unfold page1, page2, page3. repeat constructor. }
  split; [exact Hc|].
  exact (collect_pages_exact page1 [page1; page2; page3] [] Hc).
Defined.

(** ** Updates *)

Lemma bind_init (w : World) :
  configured w = true ->
  exists client, forall (A : Type) (k : ZammadAPI -> M A) (h : trace),
    bind (init_zammad_client w) k h = k client h.
Proof.
  intros Hc. destruct (init_configured w Hc) as [client Hi].
  exists client. intros A k h. unfold bind. now rewrite Hi.
Qed.

(** Without the base URL every operation stops at its first line, before
    anything reaches the backend. *)
Lemma bind_init_unconfigured (w : World) :
  url_set w = false ->
  forall (A : Type) (k : ZammadAPI -> M A) (h : trace),
    bind (init_zammad_client w) k h = (Raise not_set, h).
Proof.
  unfold url_set, bind, init_zammad_client. intros H A k h.
  destruct (getenv w "zammad_url") as [u|]; [|reflexivity].
  destruct (String.eqb u EmptyString); [reflexivity|discriminate H].
Qed.

Lemma operations_need_configuration (w : World) (h : trace) :
  url_set w = false ->
  (forall ticket_id include_attachments,
      get_ticket_details w ticket_id include_attachments h = (Raise not_set, h))
  /\ (forall ticket_id article_id,
        list_article_attachments w ticket_id article_id h = (Raise not_set, h))
  /\ (forall ticket_id state state_id,
        set_ticket_state w ticket_id state state_id h = (Raise not_set, h))
  /\ (forall ticket_id priority_id priority_name,
        set_ticket_priority w ticket_id priority_id priority_name h = (Raise not_set, h))
  /\ (forall ticket_id message subject author_id internal article_type additional_params,
        send_message_to_ticket w ticket_id message subject author_id internal
          article_type additional_params h = (Raise not_set, h))
  /\ (forall attachment_id ticket_id article_id dest_path,
        download_attachment w attachment_id ticket_id article_id dest_path h
        = (Raise not_set, h)).
Proof.
  intros Hc. repeat split; intros;
    apply (bind_init_unconfigured w Hc).
Qed.

Ltac run_init w Hc :=
  let c := fresh "client" in
  let Hi := fresh "Hinit" in
  destruct (bind_init w Hc) as [c Hi];
  rewrite ?Hi.

Lemma ticket_update_sent (w : World) (ticket_id : Z) (params : value) (h : trace) :
  exists r h',
    ticket_update w ticket_id params h = (r, h')
    /\ update_sent ticket_id params h h'.
Proof.
  unfold ticket_update, try_except_TypeError, call, update_sent.
  destruct (respond w h (ticket_update_kw ticket_id params)) as [a|e].
  - eexists. eexists. split; [reflexivity|]. now left.
  - destruct (is_TypeError e).
    + eexists. eexists. split; [reflexivity|]. right. now rewrite <- app_assoc.
    + eexists. eexists. split; [reflexivity|]. now left.
Qed.

Lemma update_sent_grows (ticket_id : Z) (params : value) (h h' : trace) :
  update_sent ticket_id params h h' -> h' <> h.
Proof.
  intros [H|H] E; subst h'; rewrite <- (app_nil_r h) in E at 2;
    apply app_inv_head in E; discriminate E.
Qed.

(** C8.  With a connection configured, [set_ticket_state] stops at its
    validation check (a [ValueError], before anything reaches the backend)
    exactly when neither [state] nor [state_id] is given; with at least one
    of them the update is sent, and with both the parameters hold both. *)
Theorem set_ticket_state_validation (w : World) (ticket_id : Z)
    (state : option string) (state_id : option Z) (h : trace) :
  configured w = true ->
  (set_ticket_state w ticket_id state state_id h = (Raise state_missing, h)
   <-> (state = None /\ state_id = None))
  /\ (forall s, state = Some s -> state_id = None ->
        set_ticket_state w ticket_id state state_id h
        = ticket_update w ticket_id (VDict [("state", VStr s)]) h)
  /\ (forall i, state = None -> state_id = Some i ->
        set_ticket_state w ticket_id state state_id h
        = ticket_update w ticket_id (VDict [("state_id", VInt i)]) h)
  /\ (forall s i, state = Some s -> state_id = Some i ->
        set_ticket_state w ticket_id state state_id h
        = ticket_update w ticket_id (VDict [("state_id", VInt i); ("state", VStr s)]) h
        /\ exists r h',
             set_ticket_state w ticket_id state state_id h = (r, h')
             /\ update_sent ticket_id (VDict [("state_id", VInt i); ("state", VStr s)]) h h').
Proof.
  intros Hc. unfold set_ticket_state. run_init w Hc.
  assert (Hgrow : forall params,
             ticket_update w ticket_id params h <> (Raise state_missing, h)).
  { intros params E.
    destruct (ticket_update_sent w ticket_id params h) as (r & h' & E' & Hs).
    rewrite E in E'. injection E' as _ <-.
    now apply update_sent_grows in Hs. }
  destruct state as [s|], state_id as [i|]; cbn -[ticket_update].
  - split; [split|]; [intros E; now apply Hgrow in E | intros [H _]; discriminate H |].
    split; [intros ? _ H; discriminate H|].
    split; [intros ? H; discriminate H|].
    intros s' i' [= <-] [= <-]. split; [reflexivity|].
    apply ticket_update_sent.
  - split; [split|]; [intros E; now apply Hgrow in E | intros [H _]; discriminate H |].
    split; [intros s' [= <-] _; reflexivity|].
    split; [intros ? H; discriminate H|].
    intros ? ? _ H; discriminate H.
  - split; [split|]; [intros E; now apply Hgrow in E | intros [_ H]; discriminate H |].
    split; [intros ? H; discriminate H|].
    split; [intros i' _ [= <-]; reflexivity|].
    intros ? ? H; discriminate H.
  - split; [split|]; [intros _; now split | intros _; reflexivity |].
    split; [intros ? H; discriminate H|].
    split; [intros ? _ H; discriminate H|].
    intros ? ? H; discriminate H.
Qed.

(** C8 on the example backend: no state at all is refused before any call;
    a state name and a state id are sent together. *)
Lemma set_ticket_state_validation_witness :
  set_ticket_state desk_world 5 None None [] = (Raise state_missing, [])
  /\ set_ticket_state desk_world 5 (Some "closed") (Some 4) [] =
       (Return (VDict [("id", VInt 5)]),
        [ticket_update_kw 5 (VDict [("state_id", VInt 4); ("state", VStr "closed")])]).
Proof.
  split.
  - apply (set_ticket_state_validation desk_world 5 None None [] eq_refl).
    now split.
  - destruct (set_ticket_state_validation desk_world 5 (Some "closed") (Some 4) [] eq_refl)
      as (_ & _ & _ & H).
    destruct (H "closed" 4 eq_refl eq_refl) as (E & _).
    rewrite E. reflexivity.
Defined.

(** C10.  With a connection configured and a [priority_id] given,
    [set_ticket_priority] is the update with parameters
    [{"priority_id": priority_id}], whatever [priority_name] is: the update is
    what reaches the backend, the priority listing is never called. *)
Theorem set_ticket_priority_by_id (w : World) (ticket_id pid : Z)
    (priority_name : option string) (h : trace) :
  configured w = true ->
  set_ticket_priority w ticket_id (Some pid) priority_name h
  = ticket_update w ticket_id (VDict [("priority_id", VInt pid)]) h
  /\ exists r h',
       set_ticket_priority w ticket_id (Some pid) priority_name h = (r, h')
       /\ update_sent ticket_id (VDict [("priority_id", VInt pid)]) h h'
       /\ forall evs, h' = h ++ evs ->
            ~ In ticket_priority_all evs /\ ~ In next_page evs.
Proof.
  intros Hc.
  assert (E : set_ticket_priority w ticket_id (Some pid) priority_name h
              = ticket_update w ticket_id (VDict [("priority_id", VInt pid)]) h).
  { unfold set_ticket_priority. run_init w Hc.
    destruct priority_name; reflexivity. }
  split; [exact E|].
  destruct (ticket_update_sent w ticket_id (VDict [("priority_id", VInt pid)]) h)
    as (r & h' & Hr & Hs).
  exists r, h'. rewrite E. split; [exact Hr|]. split; [exact Hs|].
  intros evs Hevs. subst h'.
  destruct Hs as [Hs|Hs]; apply app_inv_head in Hs; subst evs; cbn;
    split; intros H; repeat (destruct H as [H|H]; [discriminate H|]); exact H.
Qed.

(** C10 on the example backend: the id wins over a name the backend does not
    even know, and one update call is all that happens. *)
Lemma set_ticket_priority_by_id_witness :
  set_ticket_priority desk_world 5 (Some 2) (Some "no such name") [] =
    (Return (VDict [("id", VInt 5)]),
     [ticket_update_kw 5 (VDict [("priority_id", VInt 2)])]).
Proof.
  destruct (set_ticket_priority_by_id desk_world 5 2 (Some "no such name") [] eq_refl)
    as (E & _).
  rewrite E. reflexivity.
Defined.

Lemma match_priority_no_match (w : World) (name : string) (ps : list value) :
  (forall p, In p ps -> name_matches w name p = false) ->
  match_priority w ps name = Return VNone
  \/ exists e, match_priority w ps name = Raise e.
Proof.
  induction ps as [|p ps IH]; intros Hno.
  - now left.
  - cbn [match_priority].
    pose proof (Hno p (or_introl eq_refl)) as Hp.
    destruct p; cbn [py_get]; try (right; eexists; reflexivity).
    cbn [name_matches] in Hp. cbn [py_str]. rewrite Hp.
    apply IH. intros q Hq. apply Hno. now right.
Qed.

Lemma match_priority_first (w : World) (name : string) (before after : list value)
    (kvs : list (string * value)) :
  Forall (fun q => is_dict q = true /\ name_matches w name q = false) before ->
  name_matches w name (VDict kvs) = true ->
  match_priority w (before ++ VDict kvs :: after) name
  = Return (match dict_find "id" kvs with Some x => x | None => VNone end).
Proof.
  intros Hb Hm.
  induction Hb as [|q before [Hd Hq] _ IH]; cbn [app match_priority].
  - cbn [py_get py_str]. cbn [name_matches] in Hm. now rewrite Hm.
  - destruct q; try discriminate Hd. cbn [py_get py_str].
    cbn [name_matches] in Hq. rewrite Hq. exact IH.
Qed.

Lemma bind_eq {A B : Type} (m : M A) (k : A -> M B) (h : trace)
    (r : outcome A) (h' : trace) :
  m h = (r, h') ->
  bind m k h = match r with
               | Return a => k a h'
               | Raise e => (Raise e, h')
               end.
Proof. intros E. unfold bind. rewrite E. now destruct r. Qed.

Lemma resolve_priority_listing_fails (w : World) (name : string) (h : trace)
    (e : exn) (h1 : trace) :
  list_priorities w h = (Raise e, h1) ->
  resolve_priority w name h = (Return VNone, h1).
Proof.
  unfold list_priorities, resolve_priority, try_except, bind.
  destruct (call w ticket_priority_all h) as [[page|e0] h0].
  - destruct (_collect_pages page h0) as [[ps|e1] h1']; [discriminate|].
    now intros [= _ <-].
  - now intros [= _ <-].
Qed.

Lemma resolve_priority_listed (w : World) (name : string) (h : trace)
    (ps : list value) (h1 : trace) :
  list_priorities w h = (Return ps, h1) ->
  resolve_priority w name h
  = (Return (match match_priority w ps name with
             | Return v => v
             | Raise _ => VNone
             end), h1).
Proof.
  unfold list_priorities, resolve_priority, try_except, bind.
  destruct (call w ticket_priority_all h) as [[page|e0] h0]; [|discriminate].
  destruct (_collect_pages page h0) as [[ps'|e1] h1']; [|discriminate].
  intros [= <- <-]. unfold lift.
  now destruct (match_priority w ps' name).
Qed.

(** C7.  With a connection configured and only a name given,
    [set_ticket_priority] lists the priorities.  When the listing raises, or
    when no listed priority has that name up to case, the outcome is the
    [ValueError] "Could not resolve priority id", never the listing's own
    exception; when the first priority with that name (those before it being
    mappings) carries an id, the update is sent with that id. *)
Theorem set_ticket_priority_by_name (w : World) (ticket_id : Z) (name : string)
    (h : trace) :
  configured w = true ->
  (forall e h1,
      list_priorities w h = (Raise e, h1) ->
      set_ticket_priority w ticket_id None (Some name) h = (Raise could_not_resolve, h1))
  /\ (forall ps h1,
        list_priorities w h = (Return ps, h1) ->
        ((forall p, In p ps -> name_matches w name p = false) ->
         set_ticket_priority w ticket_id None (Some name) h
         = (Raise could_not_resolve, h1))
        /\ (forall before kvs after pid,
              ps = before ++ VDict kvs :: after ->
              Forall (fun q => is_dict q = true /\ name_matches w name q = false) before ->
              name_matches w name (VDict kvs) = true ->
              dict_find "id" kvs = Some pid -> pid <> VNone ->
              set_ticket_priority w ticket_id None (Some name) h
              = ticket_update w ticket_id (VDict [("priority_id", pid)]) h1)).
Proof.
  intros Hc. unfold set_ticket_priority. run_init w Hc. cbv iota. split.
  - intros e h1 Hl.
    rewrite (bind_eq _ _ _ _ _ (resolve_priority_listing_fails w name h e h1 Hl)).
    reflexivity.
  - intros ps h1 Hl.
    rewrite (bind_eq _ _ _ _ _ (resolve_priority_listed w name h ps h1 Hl)).
    split.
    + intros Hno.
      destruct (match_priority_no_match w name ps Hno) as [E|[e E]];
        rewrite E; reflexivity.
    + intros before kvs after pid -> Hb Hm Hid Hne.
      rewrite (match_priority_first w name before after kvs Hb Hm), Hid.
      destruct pid; try reflexivity. now elim Hne.
Qed.

(** C7 on the example backend, which lists [low] (1) and [urgent] (3):
    [Urgent] resolves to 3, [Critical] does not resolve; and when the listing
    itself fails the outcome is the same [ValueError]. *)
Lemma set_ticket_priority_by_name_witness :
  set_ticket_priority desk_world 5 None (Some "Urgent") [] =
    (Return (VDict [("id", VInt 5)]),
     [ticket_priority_all; ticket_update_kw 5 (VDict [("priority_id", VInt 3)])])
  /\ set_ticket_priority desk_world 5 None (Some "Critical") [] =
       (Raise could_not_resolve, [ticket_priority_all])
  /\ set_ticket_priority
       (world_of (env_url "https://desk.example.org/") (fun _ => true) no_answer)
       5 None (Some "Urgent") [] =
       (Raise could_not_resolve, [ticket_priority_all]).
Proof.
  split; [|split].
  - destruct (set_ticket_priority_by_name desk_world 5 "Urgent" [] eq_refl) as (_ & H).
    destruct (H _ _ eq_refl) as (_ & H2).
    rewrite (H2 [VDict [("id", VInt 1); ("name", VStr "low")]]
                [("id", VInt 3); ("name", VStr "urgent")] [] (VInt 3) eq_refl).
    + reflexivity.
    + repeat constructor.
    + reflexivity.
    + reflexivity.
    + discriminate.
  - destruct (set_ticket_priority_by_name desk_world 5 "Critical" [] eq_refl) as (_ & H).
    destruct (H _ _ eq_refl) as (H1 & _).
    apply H1. intros p [<-|[<-|[]]]; reflexivity.
  - destruct (set_ticket_priority_by_name
                (world_of (env_url "https://desk.example.org/") (fun _ => true) no_answer)
                5 "Urgent" [] eq_refl) as (H & _).
    apply (H (mkExn (OtherError "ConnectionError") "backend unreachable")).
    reflexivity.
Defined.

(** ** Attachment discovery *)

Lemma dict_find_nonempty (k : string) (kvs : list (string * value)) (v : value) :
  dict_find k kvs = Some v -> truthy (VDict kvs) = true.
Proof. destruct kvs; [discriminate|reflexivity]. Qed.

(** C4.  With a connection configured, when the article fetched by ticket and
    article id is a mapping whose [attachments] field is truthy,
    [list_article_attachments] returns that field as it is, and the fetch of
    the article is the only call made: neither the listing endpoint nor the
    fetch by id alone is reached. *)
Theorem embedded_attachments_first (w : World) (ticket_id : Z) (article_id : value)
    (kvs : list (string * value)) (att : value) (h : trace) :
  configured w = true ->
  respond w h (ticket_article_find_kw ticket_id article_id) = Return (VDict kvs) ->
  dict_find "attachments" kvs = Some att ->
  truthy att = true ->
  list_article_attachments w ticket_id article_id h
  = (Return att, h ++ [ticket_article_find_kw ticket_id article_id]).
Proof.
  intros Hc Hr Hf Ht. unfold list_article_attachments. run_init w Hc.
  assert (E : embedded_attachments w ticket_id article_id h
              = (Return (Some att), h ++ [ticket_article_find_kw ticket_id article_id])).
  { unfold embedded_attachments, try_except, bind, call. rewrite Hr.
    rewrite (dict_find_nonempty _ _ _ Hf), Hf, Ht. reflexivity. }
  rewrite (bind_eq _ _ _ _ _ E). reflexivity.
Qed.

(** C4 on the example backend: article 7 embeds [a.png] while the listing
    endpoint would answer [b.png]; discovery returns [a.png] after the one
    fetch. *)
Lemma embedded_attachments_first_witness :
  respond desk_world [ticket_article_find_kw 5 (VInt 7)]
    (ticket_article_attachment_all_kw 5 (VInt 7))
    = Return (VList [VDict [("id", VInt 2); ("filename", VStr "b.png")]])
  /\ list_article_attachments desk_world 5 (VInt 7) []
     = (Return (VList [VDict [("id", VInt 1); ("filename", VStr "a.png")]]),
        [ticket_article_find_kw 5 (VInt 7)]).
Proof.
  split; [reflexivity|].
  exact (embedded_attachments_first desk_world 5 (VInt 7)
           [("id", VInt 7);
            ("attachments", VList [VDict [("id", VInt 1); ("filename", VStr "a.png")]])]
           (VList [VDict [("id", VInt 1); ("filename", VStr "a.png")]])
           [] eq_refl eq_refl eq_refl eq_refl).
Defined.

Lemma try_except_none {A : Type} (m : M (option A)) (h : trace) :
  exists r h', try_except m (fun _ => ret None) h = (Return r, h').
Proof.
  unfold try_except, ret.
  destruct (m h) as [[r|e] h']; eexists; eexists; reflexivity.
Qed.

Lemma embedded_attachments_raising (w : World) (ticket_id : Z) (article_id : value)
    (h : trace) :
  (forall h0 ev, exists e, respond w h0 ev = Raise e) ->
  exists h', embedded_attachments w ticket_id article_id h = (Return None, h').
Proof.
  intros Hall. unfold embedded_attachments, try_except, bind, call.
  destruct (Hall h (ticket_article_find_kw ticket_id article_id)) as [e ->].
  eexists. reflexivity.
Qed.

Lemma listed_attachments_raising (w : World) (ticket_id : Z) (article_id : value)
    (h : trace) :
  (forall h0 ev, exists e, respond w h0 ev = Raise e) ->
  exists h', listed_attachments w ticket_id article_id h = (Return None, h').
Proof.
  intros Hall. unfold listed_attachments, try_except, try_except_TypeError, bind, call.
  destruct (client_has w "ticket_article_attachment"); [|eexists; reflexivity].
  destruct (Hall h (ticket_article_attachment_all_kw ticket_id article_id)) as [e ->].
  destruct (is_TypeError e); [|eexists; reflexivity].
  destruct (Hall (h ++ [ticket_article_attachment_all_kw ticket_id article_id])
              (ticket_article_attachment_all_pos ticket_id article_id)) as [e' ->].
  eexists. reflexivity.
Qed.

Lemma legacy_attachments_raising (w : World) (article_id : value) (h : trace) :
  (forall h0 ev, exists e, respond w h0 ev = Raise e) ->
  exists h', legacy_attachments w article_id h = (Return None, h').
Proof.
  intros Hall. unfold legacy_attachments, try_except, bind, call.
  destruct (Hall h (ticket_article_find_pos article_id)) as [e ->].
  eexists. reflexivity.
Qed.

Lemma embedded_attachments_returns (w : World) (ticket_id : Z) (article_id : value)
    (h : trace) :
  exists r h', embedded_attachments w ticket_id article_id h = (Return r, h').
Proof. unfold embedded_attachments. apply try_except_none. Qed.

Lemma listed_attachments_returns (w : World) (ticket_id : Z) (article_id : value)
    (h : trace) :
  exists r h', listed_attachments w ticket_id article_id h = (Return r, h').
Proof. unfold listed_attachments. apply try_except_none. Qed.

Lemma legacy_attachments_returns (w : World) (article_id : value) (h : trace) :
  exists r h', legacy_attachments w article_id h = (Return r, h').
Proof. unfold legacy_attachments. apply try_except_none. Qed.

(** C5 (as amended).  When [init_zammad_client] returns a client,
    [list_article_attachments] never raises: it returns a value; when the
    three strategies yield nothing it returns the empty list, and so it does
    when every call to the backend raises. *)
Theorem list_article_attachments_total (w : World) (ticket_id : Z)
    (article_id : value) (h : trace) :
  configured w = true ->
  exists v h',
    list_article_attachments w ticket_id article_id h = (Return v, h')
    /\ (forall h1 h2 h3,
          embedded_attachments w ticket_id article_id h = (Return None, h1) ->
          listed_attachments w ticket_id article_id h1 = (Return None, h2) ->
          legacy_attachments w article_id h2 = (Return None, h3) ->
          v = VList [] /\ h' = h3)
    /\ ((forall h0 ev, exists e, respond w h0 ev = Raise e) -> v = VList []).
Proof.
  intros Hc. unfold list_article_attachments. run_init w Hc.
  destruct (embedded_attachments_returns w ticket_id article_id h) as (r1 & h1 & E1).
  rewrite (bind_eq _ _ _ _ _ E1).
  destruct r1 as [att|].
  { exists att, h1. split; [reflexivity|]. split.
    - intros h1' h2 h3 H. rewrite E1 in H. discriminate H.
    - intros Hall.
      destruct (embedded_attachments_raising w ticket_id article_id h Hall) as [h1' H].
      rewrite E1 in H. discriminate H. }
  destruct (listed_attachments_returns w ticket_id article_id h1) as (r2 & h2 & E2).
  rewrite (bind_eq _ _ _ _ _ E2).
  destruct r2 as [lst|].
  { exists lst, h2. split; [reflexivity|]. split.
    - intros h1' h2' h3 H1. rewrite E1 in H1. injection H1 as <-.
      intros H. rewrite E2 in H. discriminate H.
    - intros Hall.
      destruct (listed_attachments_raising w ticket_id article_id h1 Hall) as [h2' H].
      rewrite E2 in H. discriminate H. }
  destruct (legacy_attachments_returns w article_id h2) as (r3 & h3 & E3).
  rewrite (bind_eq _ _ _ _ _ E3).
  destruct r3 as [out|].
  { exists out, h3. split; [reflexivity|]. split.
    - intros h1' h2' h3' H1. rewrite E1 in H1. injection H1 as <-.
      intros H2. rewrite E2 in H2. injection H2 as <-.
      intros H. rewrite E3 in H. discriminate H.
    - intros Hall.
      destruct (legacy_attachments_raising w article_id h2 Hall) as [h3' H].
      rewrite E3 in H. discriminate H. }
  exists (VList []), h3. split; [reflexivity|]. split.
  - intros h1' h2' h3' H1. rewrite E1 in H1. injection H1 as <-.
    intros H2. rewrite E2 in H2. injection H2 as <-.
    intros H. rewrite E3 in H. injection H as <-. now split.
  - reflexivity.
Qed.

(** C5, the claim as stated fails: without [zammad_url] the operation raises
    the [EnvironmentError] of [init_zammad_client], which no handler of
    [list_article_attachments] covers; and with [zammad_url] set and no
    credentials it raises what the constructor of the library raises. *)
Lemma list_article_attachments_unconfigured :
  list_article_attachments unconfigured_world 5 (VInt 7) [] = (Raise not_set, [])
  /\ list_article_attachments
       (world_of (env_url_only "https://desk.example.org/") (fun _ => true) desk)
       5 (VInt 7) []
     = (Raise (mkExn (OtherError "ConfigException") "Missing username in config"), []).
Proof. split; reflexivity. Qed.

(** C5 on a backend that raises on every call: three calls are tried, the
    result is the empty list. *)
Lemma list_article_attachments_total_witness :
  list_article_attachments
    (world_of (env_url "https://desk.example.org/") (fun _ => true) no_answer)
    5 (VInt 7) []
  = (Return (VList []),
     [ticket_article_find_kw 5 (VInt 7);
      ticket_article_attachment_all_kw 5 (VInt 7);
      ticket_article_find_pos (VInt 7)]).
Proof.
  destruct (list_article_attachments_total
              (world_of (env_url "https://desk.example.org/") (fun _ => true) no_answer)
              5 (VInt 7) [] eq_refl) as (v & h' & E & _ & Hall).
  rewrite E. rewrite Hall.
  - vm_compute in E. injection E as _ <-. reflexivity.
  - intros h0 ev. eexists. reflexivity.
Defined.

(** ** The consolidated ticket view *)

Lemma ticket_or_placeholder_returns (w : World) (ticket_id : Z) (h : trace) :
  exists t h1,
    ticket_or_placeholder w ticket_id h = (Return t, h1)
    /\ (forall e h', get_ticket w ticket_id h = (Raise e, h') ->
          t = placeholder ticket_id e /\ t <> VNone)
    /\ (forall v h', get_ticket w ticket_id h = (Return v, h') -> t = v).
Proof.
  unfold ticket_or_placeholder, try_except.
  destruct (get_ticket w ticket_id h) as [[v|e] h1].
  - exists v, h1. split; [reflexivity|]. split.
    + intros e h' H. discriminate H.
    + now intros v' h' [= <- _].
  - eexists. eexists. split; [reflexivity|]. split.
    + intros e' h' [= <- _]. split; [reflexivity|discriminate].
    + intros v h' H. discriminate H.
Qed.

Lemma filter_by_ticket_dicts (l : list value) (ticket_id : Z) (kept : list value) :
  filter_by_ticket l ticket_id = Return kept ->
  Forall (fun a => is_dict a = true) kept.
Proof.
  revert kept. induction l as [|a l IH]; intros kept; cbn [filter_by_ticket].
  - intros [= <-]. constructor.
  - destruct a; cbn [py_get]; try discriminate.
    destruct (filter_by_ticket l ticket_id) as [kept'|e]; [|discriminate].
    intros [= <-]. specialize (IH kept' eq_refl).
    destruct (eq_int _ ticket_id); [constructor; [reflexivity|]|]; exact IH.
Qed.

Lemma articles_or_empty_returns (w : World) (ticket_id : Z) (h : trace) :
  exists arts h2,
    articles_or_empty w ticket_id h = (Return arts, h2)
    /\ Forall (fun a => is_dict a = true) arts
    /\ (forall l h', filtered_articles w ticket_id h = (Return l, h') -> arts = l)
    /\ (forall e h',
          filtered_articles w ticket_id h = (Raise e, h') ->
          (forall l h'', get_ticket_articles w ticket_id h' = (Return l, h'') -> arts = l)
          /\ (forall e' h'', get_ticket_articles w ticket_id h' = (Raise e', h'') ->
                arts = [])).
Proof.
  unfold articles_or_empty, try_except.
  destruct (filtered_articles w ticket_id h) as [[l|e] h1] eqn:E1.
  - exists l, h1. split; [reflexivity|]. split; [|split].
    + unfold filtered_articles, bind, lift in E1.
      destruct (get_all_articles w h) as [[all|e0] h0]; [|discriminate].
      injection E1 as E1 _. now apply filter_by_ticket_dicts in E1.
    + now intros l' h' [= <- _].
    + intros e h' H. discriminate H.
  - destruct (get_ticket_articles w ticket_id h1) as [[l|e'] h2] eqn:E2.
    + exists l, h2. split; [reflexivity|]. split; [|split].
      * unfold get_ticket_articles, bind, lift in E2.
        destruct (init_zammad_client w h1) as [[c|e0] h0]; [|discriminate].
        destruct (try_except_TypeError _ _ h0) as [[page|e1] h0']; [|discriminate].
        destruct (_collect_pages page h0') as [[all|e2] h0'']; [|discriminate].
        injection E2 as E2 _. now apply filter_by_ticket_dicts in E2.
      * intros l' h' H. discriminate H.
      * intros e0 h' [= _ <-]. split.
        -- intros l' h'' H. rewrite E2 in H. now injection H as <- _.
        -- intros e'' h'' H. rewrite E2 in H. discriminate H.
    + exists [], h2. split; [reflexivity|]. split; [constructor|split].
      * intros l' h' H. discriminate H.
      * intros e0 h' [= _ <-]. split.
        -- intros l' h'' H. rewrite E2 in H. discriminate H.
        -- reflexivity.
Qed.

Lemma attachments_loop_entries (discover : value -> M value) (arts : list value) :
  Forall (fun a => is_dict a = true) arts ->
  Forall (fun a => hashable (article_id a) = true) arts ->
  forall acc h,
  exists m h',
    attachments_loop discover arts acc h = (Return m, h')
    /\ entries discover arts h acc m h'.
Proof.
  intros Hd. induction Hd as [|a arts Ha _ IH]; intros Hh acc h.
  - exists acc, h. split; [reflexivity|constructor].
  - inversion Hh as [|? ? Hha Hh']; subst.
    destruct a; try discriminate Ha.
    cbn [attachments_loop py_get]. unfold lift.
    unfold bind at 1. unfold bind at 1. unfold try_except.
    fold (article_id (VDict kvs)).
    destruct (discover (article_id (VDict kvs)) h) as [[atts|e] h1] eqn:Ed.
    + rewrite Hha.
      destruct (IH Hh' (map_set (article_id (VDict kvs)) atts acc) h1)
        as (m & h' & E & HF).
      exists m, h'. split; [exact E|].
      now apply (entries_found discover _ _ h h1 h' atts acc m).
    + unfold ret. rewrite Hha.
      destruct (IH Hh' (map_set (article_id (VDict kvs)) (VList []) acc) h1)
        as (m & h' & E & HF).
      exists m, h'. split; [exact E|].
      now apply (entries_failed discover _ _ h h1 h' e acc m).
Qed.

(** C1 (as amended).  When [init_zammad_client] returns a client,
    [get_ticket_details] handles every outcome of the ticket fetch and of the
    article fetches.  Its ticket is what the fetch returned (so [None] only
    when the fetch itself returned [None]) or, when the fetch raised, the
    placeholder with the requested id and the error text, which is not
    [None].  Its articles are the filtered list of all articles, else the
    answer of the ticket-scoped call, else empty.  Without attachments the
    view is returned with an empty attachment dict.  With attachments,
    provided the ids of the articles are hashable, the view is returned and
    its attachment dict is built article by article, from the history the
    articles left: under the article's id, what discovery returned for it, or
    the empty list if discovery raised for it, a later article replacing the
    entry of an earlier one with an equal id. *)
Theorem get_ticket_details_returns (w : World) (ticket_id : Z)
    (include_attachments : bool) (h : trace) :
  configured w = true ->
  exists t h1 arts h2,
    ticket_or_placeholder w ticket_id h = (Return t, h1)
    /\ (forall e h', get_ticket w ticket_id h = (Raise e, h') ->
          t = placeholder ticket_id e /\ t <> VNone)
    /\ (forall v h', get_ticket w ticket_id h = (Return v, h') -> t = v)
    /\ (t = VNone -> exists h', get_ticket w ticket_id h = (Return VNone, h'))
    /\ articles_or_empty w ticket_id h1 = (Return arts, h2)
    /\ (forall l h', filtered_articles w ticket_id h1 = (Return l, h') -> arts = l)
    /\ (forall e h',
          filtered_articles w ticket_id h1 = (Raise e, h') ->
          (forall l h'', get_ticket_articles w ticket_id h' = (Return l, h'') -> arts = l)
          /\ (forall e' h'', get_ticket_articles w ticket_id h' = (Raise e', h'') ->
                arts = []))
    /\ (include_attachments = false ->
        get_ticket_details w ticket_id include_attachments h
        = (Return {| ticket := t; articles := arts; attachments := [] |}, h2))
    /\ (include_attachments = true ->
        Forall (fun a => hashable (article_id a) = true) arts ->
        exists m h3,
          get_ticket_details w ticket_id include_attachments h
          = (Return {| ticket := t; articles := arts; attachments := m |}, h3)
          /\ entries (list_article_attachments w ticket_id) arts h2 [] m h3).
Proof.
  intros Hc.
  destruct (ticket_or_placeholder_returns w ticket_id h) as (t & h1 & Et & Hf & Hs).
  destruct (articles_or_empty_returns w ticket_id h1) as (arts & h2 & Ea & Hd & Hl & Hr).
  exists t, h1, arts, h2.
  do 3 (split; [assumption|]).
  split.
  { intros Hn. destruct (get_ticket w ticket_id h) as [[v|e] h'] eqn:Eg.
    - pose proof (Hs v h' eq_refl) as Hv. rewrite Hn in Hv. subst v.
      now exists h'.
    - destruct (Hf e h' eq_refl) as [_ Hne]. now elim Hne. }
  do 3 (split; [assumption|]).
  unfold get_ticket_details. run_init w Hc.
  rewrite (bind_eq _ _ _ _ _ Et), (bind_eq _ _ _ _ _ Ea).
  split.
  - intros ->. reflexivity.
  - intros -> Hh.
    destruct (attachments_loop_entries (list_article_attachments w ticket_id)
                arts Hd Hh [] h2) as (m & h3 & El & HF).
    exists m, h3. split; [|exact HF].
    rewrite (bind_eq _ _ _ _ _ El). reflexivity.
Qed.

(** C1, the claim as stated fails: without [zammad_url] the call raises the
    [EnvironmentError] of the [init_zammad_client] at the head of
    [get_ticket_details]; with [zammad_url] set and no credentials it raises
    what the constructor of the library raises; and when the fetch of the
    ticket answers [None], the ticket of the view is [None]. *)
Lemma get_ticket_details_unconfigured :
  get_ticket_details unconfigured_world 5 true [] = (Raise not_set, [])
  /\ get_ticket_details
       (world_of (env_url_only "https://desk.example.org/") (fun _ => true) desk) 5 true []
     = (Raise (mkExn (OtherError "ConfigException") "Missing username in config"), [])
  /\ get_ticket_details
       (world_of (env_url "https://desk.example.org/") (fun _ => true) null_ticket)
       5 false []
     = (Return {| ticket := VNone; articles := []; attachments := [] |},
        [ticket_find 5; ticket_article_all; ticket_article_all]).
Proof. repeat split. Qed.

(** An article whose id is a list cannot key [attachments_map]: the
    assignment raises [TypeError], outside every handler. *)
Lemma get_ticket_details_unhashable_id :
  get_ticket_details
    (world_of (env_url "https://desk.example.org/") (fun _ => true) odd_ids) 5 true []
  = (Raise (mkExn TypeError "unhashable type"),
     [ticket_find 5; ticket_article_all;
      ticket_article_find_kw 5 (VList [VInt 1]);
      ticket_article_attachment_all_kw 5 (VList [VInt 1]);
      ticket_article_find_pos (VList [VInt 1])]).
Proof. reflexivity. Qed.

(** C1 on the example backend: ticket 5 with its two articles, each with the
    embedded attachment; and on a backend that raises on every call: the
    placeholder and no article. *)
Lemma get_ticket_details_returns_witness :
  get_ticket_details desk_world 5 true []
  = (Return
       {| ticket := VDict [("id", VInt 5); ("title", VStr "Printer")];
          articles := [VDict [("id", VInt 7); ("ticket_id", VInt 5)];
                       VDict [("id", VInt 8); ("ticket_id", VInt 5)]];
          attachments :=
            [(VInt 7, VList [VDict [("id", VInt 1); ("filename", VStr "a.png")]]);
             (VInt 8, VList [VDict [("id", VInt 1); ("filename", VStr "a.png")]])] |},
     [ticket_find 5; ticket_article_all;
      ticket_article_find_kw 5 (VInt 7); ticket_article_find_kw 5 (VInt 8)])
  /\ get_ticket_details
       (world_of (env_url "https://desk.example.org/") (fun _ => true) no_answer)
       5 false []
     = (Return {| ticket := placeholder 5 (mkExn (OtherError "ConnectionError")
                                             "backend unreachable");
                  articles := []; attachments := [] |},
        [ticket_find 5; ticket_article_all; ticket_article_all]).
Proof.
  split.
  - destruct (get_ticket_details_returns desk_world 5 true [] eq_refl)
      as (t & h1 & arts & h2 & Et & _ & _ & _ & Ea & _ & _ & _ & E).
    vm_compute in Et. injection Et as <- <-.
    vm_compute in Ea. injection Ea as <- <-.
    destruct (E eq_refl) as (m & h3 & Eg & _).
    + repeat constructor.
    + rewrite Eg. vm_compute in Eg. injection Eg as <- <-. reflexivity.
  - destruct (get_ticket_details_returns
                (world_of (env_url "https://desk.example.org/") (fun _ => true) no_answer)
                5 false [] eq_refl)
      as (t & h1 & arts & h2 & Et & _ & _ & _ & Ea & _ & _ & E & _).
    rewrite (E eq_refl).
    vm_compute in Et. injection Et as <- <-.
    vm_compute in Ea. injection Ea as <- <-.
    reflexivity.
Defined.

(** ** Call shapes tried in turn *)

Lemma first_truthy_none (n : nat) (last_error : option exn) (h : trace) :
  first_truthy (repeat (ret VNone) n) last_error h = (Return (None, last_error), h).
Proof. induction n as [|n IH]; cbn; [reflexivity|exact IH]. Qed.

Lemma first_truthy_all_fail (w : World) (shapes : list event) (tail : list (M value)) :
  forall last_error h,
    all_fail w h shapes = true ->
    first_truthy (map (call w) shapes ++ tail) last_error h
    = first_truthy tail (last_error_of w h shapes last_error) (h ++ shapes).
Proof.
  induction shapes as [|c rest IH]; intros last_error h Hf.
  - cbn. now rewrite app_nil_r.
  - cbn [map app first_truthy all_fail last_error_of] in *. unfold call at 1.
    apply andb_prop in Hf as [Hc Hrest].
    destruct (respond w h c) as [r|e].
    + apply negb_true_iff in Hc. rewrite Hc.
      rewrite (IH _ _ Hrest). now rewrite <- app_assoc.
    + rewrite (IH _ _ Hrest). now rewrite <- app_assoc.
Qed.

Lemma first_truthy_hit (w : World) (pre : list event) (c : event)
    (rest : list (M value)) (r : value) (last_error : option exn) (h : trace) :
  all_fail w h pre = true ->
  respond w (h ++ pre) c = Return r ->
  truthy r = true ->
  first_truthy (map (call w) pre ++ call w c :: rest) last_error h
  = (Return (Some r, last_error_of w h pre last_error), h ++ pre ++ [c]).
Proof.
  intros Hf Hr Ht. rewrite (first_truthy_all_fail w pre _ _ _ Hf).
  cbn [first_truthy]. unfold call. rewrite Hr, Ht. now rewrite app_assoc.
Qed.

Lemma message_callers_shapes (w : World) (ticket_id : Z) (params : value) :
  message_callers w ticket_id params
  = map (call w) (message_shapes w ticket_id params)
    ++ repeat (ret VNone) (if client_has w "ticket" then 0 else 2).
Proof.
  unfold message_callers, message_shapes.
  destruct (client_has w "ticket_article"), (client_has w "ticket"); reflexivity.
Qed.

(** C2.  With a connection configured, [send_message_to_ticket] attempts the
    calls of [message_shapes]: at most six, and for a client with both
    attributes the six shapes in the order of the specification.  When the calls
    before one of them all raise or answer a falsy response and that one
    answers a truthy response, this response is returned and nothing is
    attempted after it.  When they all fail, a [RuntimeError] is raised whose
    text ends with the last exception met. *)
Theorem send_message_first_truthy (w : World) (ticket_id : Z) (message : string)
    (subject : option string) (author_id : option Z) (internal : bool)
    (article_type : option string)
    (additional_params : option (list (string * value))) (h : trace) :
  configured w = true ->
  let params :=
    VDict (message_params ticket_id message subject author_id internal
             article_type additional_params) in
  let shapes := message_shapes w ticket_id params in
  (length shapes <= 6)%nat
  /\ (client_has w "ticket_article" = true -> client_has w "ticket" = true ->
      shapes =
        [ ticket_article_create_kw params;
          ticket_article_create_pos params;
          ticket_article_create_id_pos ticket_id params;
          ticket_article_create_expanded params;
          ticket_update_kw ticket_id (VDict [("article", params)]);
          ticket_update_pos ticket_id (VDict [("article", params)]) ])
  /\ (forall pre c post r,
        shapes = pre ++ c :: post ->
        all_fail w h pre = true ->
        respond w (h ++ pre) c = Return r ->
        truthy r = true ->
        send_message_to_ticket w ticket_id message subject author_id internal
          article_type additional_params h
        = (Return r, h ++ pre ++ [c]))
  /\ (all_fail w h shapes = true ->
      send_message_to_ticket w ticket_id message subject author_id internal
        article_type additional_params h
      = (Raise (mkExn RuntimeError
                  (String.append "Could not create ticket article. Last error: "
                     (str_last_error (last_error_of w h shapes None)))),
         h ++ shapes)).
Proof.
  intros Hc params shapes. split; [|split; [|split]].
  - unfold shapes, message_shapes.
    destruct (client_has w "ticket_article"), (client_has w "ticket"); cbn; lia.
  - intros Ha Ht. unfold shapes, message_shapes. now rewrite Ha, Ht.
  - intros pre c post r Hs Hf Hr Ht.
    unfold send_message_to_ticket. run_init w Hc.
    fold params. rewrite message_callers_shapes. fold shapes. rewrite Hs.
    rewrite map_app. cbn [map]. rewrite <- app_assoc. cbn [app].
    rewrite (bind_eq _ _ _ _ _ (first_truthy_hit w pre c _ r None h Hf Hr Ht)).
    reflexivity.
  - intros Hf.
    unfold send_message_to_ticket. run_init w Hc.
    fold params. rewrite message_callers_shapes. fold shapes.
    unfold bind. rewrite (first_truthy_all_fail w shapes _ _ _ Hf).
    rewrite first_truthy_none. reflexivity.
Qed.

(** C2 on a backend that fails the first two shapes and accepts the third:
    exactly three attempts; and on one that raises on every call: six
    attempts and the [RuntimeError] with the last error. *)
Lemma send_message_first_truthy_witness :
  send_message_to_ticket picky_world 5 "hello" None None false None None []
  = (Return (VDict [("id", VInt 11); ("ticket_id", VInt 5)]),
     [ticket_article_create_kw
        (VDict [("ticket_id", VInt 5); ("body", VStr "hello"); ("internal", VBool false)]);
      ticket_article_create_pos
        (VDict [("ticket_id", VInt 5); ("body", VStr "hello"); ("internal", VBool false)]);
      ticket_article_create_id_pos 5
        (VDict [("ticket_id", VInt 5); ("body", VStr "hello"); ("internal", VBool false)])])
  /\ exists h',
       send_message_to_ticket
         (world_of (env_url "https://desk.example.org/") (fun _ => true) no_answer)
         5 "hello" None None false None None []
       = (Raise (mkExn RuntimeError
                   "Could not create ticket article. Last error: backend unreachable"), h')
       /\ length h' = 6%nat.
Proof.
  split.
  - destruct (send_message_first_truthy picky_world 5 "hello" None None false None None
                [] eq_refl) as (_ & _ & H & _).
    exact (H [ticket_article_create_kw _; ticket_article_create_pos _]
             (ticket_article_create_id_pos 5 _) _ _ eq_refl eq_refl eq_refl eq_refl).
  - destruct (send_message_first_truthy
                (world_of (env_url "https://desk.example.org/") (fun _ => true) no_answer)
                5 "hello" None None false None None [] eq_refl) as (_ & _ & _ & H).
    eexists. split; [exact (H eq_refl)|reflexivity].
Defined.

(** ** Download *)

(** What [download_attachment] does with a mapping that has a [data] field,
    once it is the response chosen: the decoded bytes are written; if decoding
    raises, the JSON text of the mapping is written; if producing that text
    raises too, the exception leaves [download_attachment] and nothing is
    written. *)
Lemma download_data_field (w : World) (attachment_id ticket_id article_id : Z)
    (dest_path : string) (kvs : list (string * value)) (d : value)
    (last_error : option exn) (h h1 : trace) :
  configured w = true ->
  first_truthy (download_callers w attachment_id ticket_id article_id) None h
    = (Return (Some (VDict kvs), last_error), h1) ->
  dict_find "data" kvs = Some d ->
  (forall bs,
      b64decode w d = Return bs ->
      download_attachment w attachment_id ticket_id article_id dest_path h
      = (Return dest_path, h1 ++ [mkdir_parents dest_path; write_file dest_path bs]))
  /\ (forall e s,
        b64decode w d = Raise e ->
        json_dumps w (VDict kvs) = Return s ->
        download_attachment w attachment_id ticket_id article_id dest_path h
        = (Return dest_path,
           h1 ++ [mkdir_parents dest_path; write_file dest_path (encode s)]))
  /\ (forall e e',
        b64decode w d = Raise e ->
        json_dumps w (VDict kvs) = Raise e' ->
        download_attachment w attachment_id ticket_id article_id dest_path h
        = (Raise e', h1)).
Proof.
  intros Hc Hf Hd. unfold download_attachment. run_init w Hc.
  rewrite (bind_eq _ _ _ _ _ Hf). cbv iota beta.
  unfold response_data, json_bytes, lift, write_bytes, emit, bind, ret.
  rewrite Hd. split; [|split].
  - intros bs ->. now rewrite <- app_assoc.
  - intros e s -> ->. now rewrite <- app_assoc.
  - intros e e' -> ->. reflexivity.
Qed.

(** The first example of the specification: [{"data": base64("hello")}]
    writes the bytes [hello]. *)
Lemma download_base64_hello :
  download_attachment (download_world (VDict [("data", VStr "aGVsbG8=")]))
    1 5 7 "out/a.bin" []
  = (Return "out/a.bin",
     [ticket_article_attachment_download_kw 1 5 7;
      mkdir_parents "out/a.bin";
      write_file "out/a.bin" (encode "hello")]).
Proof.
  destruct (download_data_field (download_world (VDict [("data", VStr "aGVsbG8=")]))
              1 5 7 "out/a.bin" [("data", VStr "aGVsbG8=")] (VStr "aGVsbG8=") None
              [] [ticket_article_attachment_download_kw 1 5 7]
              eq_refl eq_refl eq_refl) as (H & _).
  exact (H (encode "hello") eq_refl).
Qed.

(** The second example: [{"data": "not-base64!!"}] does not decode, the JSON
    text of the mapping is written. *)
Lemma download_not_base64 :
  download_attachment (download_world (VDict [("data", VStr "not-base64!!")]))
    1 5 7 "out/a.bin" []
  = (Return "out/a.bin",
     [ticket_article_attachment_download_kw 1 5 7;
      mkdir_parents "out/a.bin";
      write_file "out/a.bin"
        (encode (String.append "{"
                (String.append dquote (String.append "data" (String.append dquote
                (String.append ": "
                (String.append dquote (String.append "not-base64!!" (String.append dquote
                 "}")))))))))]).
Proof. reflexivity. Qed.

(** C6, where the code departs from the claim: a mapping whose [data] is a
    raw byte buffer does not decode, and the fallback [json.dumps] of the
    mapping raises [TypeError], which nothing handles: [download_attachment]
    raises and writes no file. *)
Theorem download_raw_data_raises :
  b64decode (download_world (VDict [("data", VBytes (encode "raw"))]))
    (VBytes (encode "raw"))
  = Raise (mkExn (OtherError "binascii.Error") "Incorrect padding")
  /\ download_attachment (download_world (VDict [("data", VBytes (encode "raw"))]))
       1 5 7 "out/a.bin" []
     = (Raise (mkExn TypeError "Object is not JSON serializable"),
        [ticket_article_attachment_download_kw 1 5 7]).
Proof. split; reflexivity. Qed.

(** * Further properties *)

(** ** Page Collector: edges *)

(** X1.  A first page with no callable [next_page] (a plain list, a mapping,
    a single object) is collected without any fetch: its items when it is
    truthy, nothing when it is falsy. *)
Theorem collect_pages_single_page (first : value) (h : trace) :
  has_next_page first = false ->
  _collect_pages first h
  = (Return (if truthy first then page_items first else []), h).
Proof.
  intros Hn. unfold _collect_pages.
  destruct (truthy first) eqn:Ht; cbn [negb]; [|reflexivity].
  rewrite extend_or_append_items. cbn [app].
  destruct first; try reflexivity.
  destruct o_next_page; try discriminate Hn. reflexivity.
Qed.

Lemma collect_pages_single_page_witness :
  _collect_pages (VList [VInt 1; VInt 2]) [] = (Return [VInt 1; VInt 2], [])
  /\ _collect_pages (VInt 7) [] = (Return [VInt 7], [])
  /\ _collect_pages VNone [ticket_all] = (Return [], [ticket_all]).
Proof.
  split; [|split].
  - exact (collect_pages_single_page (VList [VInt 1; VInt 2]) [] eq_refl).
  - exact (collect_pages_single_page (VInt 7) [] eq_refl).
  - exact (collect_pages_single_page VNone [ticket_all] eq_refl).
Defined.

Lemma collect_next_shape (n : nat) :
  forall page, (chain_depth page <= n)%nat ->
  forall items h,
    (exists k, snd (collect_next page items h) = h ++ repeat next_page k)
    /\ (forall out, fst (collect_next page items h) = Return out ->
          exists more, out = items ++ more).
Proof.
  induction n as [|n IH]; intros page Hd items h.
  - destruct page; try (split; [exists O; cbn; now rewrite app_nil_r
                                | intros out [= <-]; exists []; now rewrite app_nil_r]).
    destruct o_next_page.
    + split; [exists O; cbn; now rewrite app_nil_r
             | intros out [= <-]; exists []; now rewrite app_nil_r].
    + split; [exists 1%nat; reflexivity | intros out H; discriminate H].
    + cbn in Hd. lia.
  - destruct page; try (split; [exists O; cbn; now rewrite app_nil_r
                                | intros out [= <-]; exists []; now rewrite app_nil_r]).
    destruct o_next_page.
    + split; [exists O; cbn; now rewrite app_nil_r
             | intros out [= <-]; exists []; now rewrite app_nil_r].
    + split; [exists 1%nat; reflexivity | intros out H; discriminate H].
    + cbn [chain_depth] in Hd. apply le_S_n in Hd.
      cbn [collect_next]. unfold bind, emit.
      destruct (truthy v) eqn:Ht.
      * destruct (IH v Hd (extend_or_append items v) (h ++ [next_page])) as [[k Hk] Ho].
        split.
        -- exists (S k). rewrite Hk. cbn [repeat]. now rewrite <- app_assoc.
        -- intros out Hout. destruct (Ho out Hout) as [more ->].
           rewrite extend_or_append_items. exists (page_items v ++ more).
           now rewrite app_assoc.
      * split; [exists 1%nat; reflexivity|].
        intros out [= <-]. exists []. now rewrite app_nil_r.
Qed.

(** X2.  Whatever the first page is, [_collect_pages] touches the outside
    only through [next_page]; and when it returns for a truthy first page,
    the items of that page come first. *)
Theorem collect_pages_shape (first : value) (h : trace) :
  (exists k, snd (_collect_pages first h) = h ++ repeat next_page k)
  /\ (forall out, fst (_collect_pages first h) = Return out ->
        exists more, out = (if truthy first then page_items first else []) ++ more).
Proof.
  unfold _collect_pages. destruct (truthy first) eqn:Ht; cbn [negb].
  - destruct (collect_next_shape (chain_depth first) first (le_n _)
                (extend_or_append [] first) h) as [Hk Ho].
    split; [exact Hk|].
    intros out Hout. destruct (Ho out Hout) as [more ->].
    exists more. now rewrite extend_or_append_items.
  - split; [exists O; cbn; now rewrite app_nil_r|].
    intros out [= <-]. now exists [].
Qed.

Lemma collect_next_raising (first : value) (n : nat) (e : exn) :
  raising_cursor first n e ->
  forall items h,
    collect_next first items h = (Raise e, h ++ repeat next_page n).
Proof.
  induction 1 as [it e rd | it next rd n e Ht Hr IH]; intros items h.
  - reflexivity.
  - cbn [collect_next]. unfold bind, emit. rewrite Ht, IH.
    cbn [repeat]. now rewrite <- app_assoc.
Qed.

(** X3.  When the [n]-th call of [next_page] raises, [_collect_pages] raises
    that exception after [n] fetches: the items of the pages already read are
    not returned. *)
Theorem collect_pages_next_page_raises (first : value) (n : nat) (e : exn)
    (h : trace) :
  raising_cursor first n e ->
  _collect_pages first h = (Raise e, h ++ repeat next_page n).
Proof.
  intros Hr. unfold _collect_pages.
  assert (Ht : truthy first = true) by (destruct Hr; reflexivity).
  rewrite Ht. cbn [negb]. now apply collect_next_raising.
Qed.

Lemma collect_pages_next_page_raises_witness :
  _collect_pages broken_page []
  = (Raise (mkExn (OtherError "HTTPError") "502"), [next_page; next_page]).
Proof.
  apply (collect_pages_next_page_raises broken_page 2).
  unfold broken_page. apply raising_later; [reflexivity|apply raising_here].
Defined.

(** ** Read operations *)

Lemma collect_pages_list (l : list value) (h : trace) :
  _collect_pages (VList l) h = (Return l, h).
Proof. destruct l; reflexivity. Qed.

Lemma filter_by_ticket_filter (l : list value) (ticket_id : Z) :
  Forall (fun a => is_dict a = true) l ->
  filter_by_ticket l ticket_id = Return (filter (belongs ticket_id) l).
Proof.
  induction 1 as [|a l Ha _ IH]; [reflexivity|].
  destruct a; try discriminate Ha.
  cbn [filter_by_ticket py_get filter]. rewrite IH. reflexivity.
Qed.

Lemma filter_by_ticket_not_mapping (l : list value) (ticket_id : Z) :
  Exists (fun a => is_dict a = false) l ->
  filter_by_ticket l ticket_id = Raise no_get.
Proof.
  induction 1 as [a l Ha | a l _ IH].
  - destruct a; try discriminate Ha; reflexivity.
  - cbn [filter_by_ticket]. destruct a; try reflexivity.
    cbn [py_get]. now rewrite IH.
Qed.

Lemma filter_by_ticket_belongs (l : list value) (ticket_id : Z) (kept : list value) :
  filter_by_ticket l ticket_id = Return kept ->
  Forall (fun a => belongs ticket_id a = true) kept.
Proof.
  revert kept. induction l as [|a l IH]; intros kept; cbn [filter_by_ticket].
  - intros [= <-]. constructor.
  - destruct a; cbn [py_get]; try discriminate.
    destruct (filter_by_ticket l ticket_id) as [kept'|e]; [|discriminate].
    intros [= <-]. specialize (IH kept' eq_refl).
    match goal with |- context [if ?c then _ else _] => destruct c eqn:Hb end;
      [constructor; [exact Hb|]|]; exact IH.
Qed.

(** X4.  With a connection configured, a result of [get_ticket_articles]
    holds only mappings that carry the requested ticket id.  When
    [ticket_article.all] answers a list of mappings, the result is that list
    filtered on the ticket id, in order; one element that is not a mapping
    makes the call raise [AttributeError].  A [TypeError] of the first call
    is answered by calling once more; any other exception leaves at once. *)
Theorem get_ticket_articles_spec (w : World) (ticket_id : Z) (h : trace) :
  configured w = true ->
  (forall arts h',
      get_ticket_articles w ticket_id h = (Return arts, h') ->
      Forall (fun a => is_dict a = true /\ belongs ticket_id a = true) arts)
  /\ (forall l,
        respond w h ticket_article_all = Return (VList l) ->
        (Forall (fun a => is_dict a = true) l ->
         get_ticket_articles w ticket_id h
         = (Return (filter (belongs ticket_id) l), h ++ [ticket_article_all]))
        /\ (Exists (fun a => is_dict a = false) l ->
            get_ticket_articles w ticket_id h = (Raise no_get, h ++ [ticket_article_all])))
  /\ (forall e,
        respond w h ticket_article_all = Raise e ->
        (is_TypeError e = false ->
         get_ticket_articles w ticket_id h = (Raise e, h ++ [ticket_article_all]))
        /\ (is_TypeError e = true ->
            forall l,
              respond w (h ++ [ticket_article_all]) ticket_article_all = Return (VList l) ->
              Forall (fun a => is_dict a = true) l ->
              get_ticket_articles w ticket_id h
              = (Return (filter (belongs ticket_id) l),
                 h ++ [ticket_article_all; ticket_article_all]))).
Proof.
  intros Hc. unfold get_ticket_articles. run_init w Hc.
  split; [|split].
  - intros arts h'. unfold bind, lift.
    destruct (try_except_TypeError _ _ h) as [[page|e1] h0]; [|discriminate].
    destruct (_collect_pages page h0) as [[all|e2] h0']; [|discriminate].
    intros [= E _].
    pose proof (filter_by_ticket_dicts _ _ _ E) as Hd.
    pose proof (filter_by_ticket_belongs _ _ _ E) as Hb.
    clear E. induction Hd as [|a arts Ha Hd IH]; [constructor|].
    inversion Hb; subst. constructor; [now split|]. now apply IH.
  - intros l Hr.
    assert (E : forall k : value -> M (list value),
               bind (try_except_TypeError (call w ticket_article_all)
                       (call w ticket_article_all)) k h
               = k (VList l) (h ++ [ticket_article_all])).
    { intros k. unfold bind, try_except_TypeError, call. now rewrite Hr. }
    rewrite E. split; intros Hl.
    + unfold bind, lift. rewrite collect_pages_list.
      now rewrite (filter_by_ticket_filter l ticket_id Hl).
    + unfold bind, lift. rewrite collect_pages_list.
      now rewrite (filter_by_ticket_not_mapping l ticket_id Hl).
  - intros e Hr. split.
    + intros He. unfold bind, try_except_TypeError, call. now rewrite Hr, He.
    + intros He l Hr2 Hl.
      unfold bind at 1. unfold try_except_TypeError, call. rewrite Hr, He, Hr2.
      rewrite <- app_assoc. cbn [app].
      unfold bind, lift. rewrite collect_pages_list.
      now rewrite (filter_by_ticket_filter l ticket_id Hl).
Qed.

(** X4 on the example backend: of the three articles, the two of ticket 5;
    and on a backend that rejects the first call with a [TypeError]. *)
Lemma get_ticket_articles_spec_witness :
  get_ticket_articles desk_world 5 []
  = (Return [VDict [("id", VInt 7); ("ticket_id", VInt 5)];
             VDict [("id", VInt 8); ("ticket_id", VInt 5)]],
     [ticket_article_all])
  /\ get_ticket_articles
       (world_of (env_url "https://desk.example.org/") (fun _ => true) retried) 6 []
     = (Return [VDict [("id", VInt 9); ("ticket_id", VInt 6)]],
        [ticket_article_all; ticket_article_all])
  /\ get_ticket_articles
       (world_of (env_url "https://desk.example.org/") (fun _ => true) single_ticket) 5 []
     = (Raise no_get, [ticket_article_all]).
Proof.
  split; [|split].
  - destruct (get_ticket_articles_spec desk_world 5 [] eq_refl) as (_ & H & _).
    destruct (H _ eq_refl) as (H1 & _). apply H1. repeat constructor.
  - destruct (get_ticket_articles_spec
                (world_of (env_url "https://desk.example.org/") (fun _ => true) retried)
                6 [] eq_refl) as (_ & _ & H).
    destruct (H _ eq_refl) as (_ & H2).
    apply (H2 eq_refl _ eq_refl). repeat constructor.
  - destruct (get_ticket_articles_spec
                (world_of (env_url "https://desk.example.org/") (fun _ => true) single_ticket)
                5 [] eq_refl) as (_ & H & _).
    destruct (H _ eq_refl) as (_ & H2). apply H2.
    apply Exists_cons_tl. apply Exists_cons_hd. reflexivity.
Defined.

Lemma collect_pages_of_cursor (first : value) (pages : list value) (h : trace) :
  cursor first pages ->
  _collect_pages first h
  = (Return (concat (map page_items pages)), h ++ repeat next_page (length pages)).
Proof.
  intros Hc. unfold _collect_pages.
  destruct Hc as [first Hf | it next rd pages Hc].
  - rewrite Hf. cbn. now rewrite app_nil_r.
  - cbn [truthy negb].
    rewrite (collect_next_cursor _ _ (cursor_page it next rd pages Hc) _ _ eq_refl).
    now rewrite extend_or_append_items.
Qed.

(** X5.  With a connection configured, [get_all_tickets] and
    [get_all_articles] make one listing call and drain the cursor it answers:
    all items of all pages in order, one [next_page] per page.  An exception
    of the listing call leaves unchanged.  A listing answered by one mapping
    instead of a page gives the mapping's keys. *)
Theorem get_all_spec (w : World) (h : trace) :
  configured w = true ->
  (forall first pages,
      cursor first pages ->
      (respond w h ticket_all = Return first ->
       get_all_tickets w h
       = (Return (concat (map page_items pages)),
          h ++ ticket_all :: repeat next_page (length pages)))
      /\ (respond w h ticket_article_all = Return first ->
          get_all_articles w h
          = (Return (concat (map page_items pages)),
             h ++ ticket_article_all :: repeat next_page (length pages))))
  /\ (forall e,
        (respond w h ticket_all = Raise e ->
         get_all_tickets w h = (Raise e, h ++ [ticket_all]))
        /\ (respond w h ticket_article_all = Raise e ->
            get_all_articles w h = (Raise e, h ++ [ticket_article_all])))
  /\ (forall k v kvs,
        respond w h ticket_all = Return (VDict ((k, v) :: kvs)) ->
        get_all_tickets w h
        = (Return (VStr k :: map (fun kv => VStr (fst kv)) kvs), h ++ [ticket_all])).
Proof.
  intros Hc. unfold get_all_tickets, get_all_articles. run_init w Hc.
  split; [|split].
  - intros first pages Hcur. split; intros Hr; unfold bind, call; rewrite Hr;
      rewrite (collect_pages_of_cursor _ _ _ Hcur); now rewrite <- app_assoc.
  - intros e. split; intros Hr; unfold bind, call; now rewrite Hr.
  - intros k v kvs Hr. unfold bind, call. now rewrite Hr.
Qed.

Lemma get_all_spec_witness :
  get_all_tickets (world_of (env_url "https://desk.example.org/") (fun _ => true) paged) []
  = (Return [VInt 1; VInt 2; page2; VInt 4],
     [ticket_all; next_page; next_page; next_page])
  /\ get_all_tickets
       (world_of (env_url "https://desk.example.org/") (fun _ => true) single_ticket) []
     = (Return [VStr "id"; VStr "title"], [ticket_all]).
Proof.
  split.
  - destruct (get_all_spec
                (world_of (env_url "https://desk.example.org/") (fun _ => true) paged)
                [] eq_refl) as (H & _).
    destruct (H page1 [page1; page2; page3]) as (H1 & _).
    + unfold page1, page2, page3. repeat constructor.
    + exact (H1 eq_refl).
  - destruct (get_all_spec
                (world_of (env_url "https://desk.example.org/") (fun _ => true) single_ticket)
                [] eq_refl) as (_ & _ & H).
    exact (H _ _ _ eq_refl).
Defined.

Lemma articles_or_empty_belong (w : World) (ticket_id : Z) (h : trace)
    (arts : list value) (h2 : trace) :
  articles_or_empty w ticket_id h = (Return arts, h2) ->
  Forall (fun a => is_dict a = true /\ belongs ticket_id a = true) arts.
Proof.
  assert (Hboth : forall l kept,
             filter_by_ticket l ticket_id = Return kept ->
             Forall (fun a => is_dict a = true /\ belongs ticket_id a = true) kept).
  { intros l kept E.
    pose proof (filter_by_ticket_dicts _ _ _ E) as Hd.
    pose proof (filter_by_ticket_belongs _ _ _ E) as Hb.
    clear E. induction Hd as [|a kept Ha Hd IH]; [constructor|].
    inversion Hb; subst. constructor; [now split|]. now apply IH. }
  unfold articles_or_empty, try_except.
  destruct (filtered_articles w ticket_id h) as [[l|e] h1] eqn:E1.
  - intros [= <- _]. unfold filtered_articles, bind, lift in E1.
    destruct (get_all_articles w h) as [[all|e0] h0]; [|discriminate].
    injection E1 as E1 _. now apply Hboth in E1.
  - destruct (get_ticket_articles w ticket_id h1) as [[l|e'] h2'] eqn:E2.
    + intros [= <- _]. unfold get_ticket_articles, bind, lift in E2.
      destruct (init_zammad_client w h1) as [[c|e0] h0]; [|discriminate].
      destruct (try_except_TypeError _ _ h0) as [[page|e1] h0']; [|discriminate].
      destruct (_collect_pages page h0') as [[all|e2] h0'']; [|discriminate].
      injection E2 as E2 _. now apply Hboth in E2.
    + intros [= <- _]. constructor.
Qed.

Lemma map_set_has (k v : value) (m : list (value * value)) :
  exists k0, In k0 (map fst (map_set k v m)) /\ (k0 = k \/ key_eqb k k0 = true).
Proof.
  induction m as [|[k' v'] m IH]; cbn [map_set].
  - exists k. split; [now left|now left].
  - destruct (key_eqb k k') eqn:E.
    + exists k'. split; [now left|now right].
    + destruct IH as (k0 & Hin & Hk). exists k0. split; [now right|exact Hk].
Qed.

Lemma map_set_keeps (k v k0 : value) (m : list (value * value)) :
  In k0 (map fst m) -> In k0 (map fst (map_set k v m)).
Proof.
  induction m as [|[k' v'] m IH]; cbn [map_set]; [intros []|].
  destruct (key_eqb k k'); cbn [map fst In]; [easy|].
  intros [H|H]; [now left|right; now apply IH].
Qed.

Lemma map_set_keys_from (k v k0 : value) (m : list (value * value)) :
  In k0 (map fst (map_set k v m)) -> In k0 (map fst m) \/ k0 = k.
Proof.
  induction m as [|[k' v'] m IH]; cbn [map_set].
  - intros [H|[]]. now right.
  - destruct (key_eqb k k'); cbn [map fst In]; [now left|].
    intros [H|H]; [left; now left|].
    destruct (IH H) as [H'|H']; [left; now right|now right].
Qed.

Lemma map_set_length (k v : value) (m : list (value * value)) :
  (length (map_set k v m) <= S (length m))%nat.
Proof.
  induction m as [|[k' v'] m IH]; cbn [map_set]; [cbn; lia|].
  destruct (key_eqb k k'); cbn [length]; lia.
Qed.

Lemma attachments_loop_keys (discover : value -> M value) (arts : list value) :
  Forall (fun a => is_dict a = true) arts ->
  forall acc h m h',
    attachments_loop discover arts acc h = (Return m, h') ->
    (forall k, In k (map fst acc) -> In k (map fst m))
    /\ (forall a, In a arts ->
          exists k, In k (map fst m)
                    /\ (k = article_id a \/ key_eqb (article_id a) k = true))
    /\ (forall k, In k (map fst m) ->
          In k (map fst acc) \/ exists a, In a arts /\ k = article_id a)
    /\ (length m <= length acc + length arts)%nat.
Proof.
  induction 1 as [|a arts Ha _ IH]; intros acc h m h'.
  - cbn. intros [= <- _]. split; [easy|]. split; [intros a []|].
    split; [intros k Hk; now left|lia].
  - destruct a; try discriminate Ha.
    cbn [attachments_loop py_get]. unfold lift.
    unfold bind at 1. unfold bind at 1. unfold try_except.
    fold (article_id (VDict kvs)).
    set (aid := article_id (VDict kvs)).
    assert (Hstep : forall atts h1,
               attachments_loop discover arts (map_set aid atts acc) h1 = (Return m, h') ->
               (forall k, In k (map fst acc) -> In k (map fst m))
               /\ (forall a, In a (VDict kvs :: arts) ->
                     exists k, In k (map fst m)
                               /\ (k = article_id a \/ key_eqb (article_id a) k = true))
               /\ (forall k, In k (map fst m) ->
                     In k (map fst acc)
                     \/ exists a, In a (VDict kvs :: arts) /\ k = article_id a)
               /\ (length m <= length acc + length (VDict kvs :: arts))%nat).
    { intros atts h1 E. destruct (IH _ _ _ _ E) as (H1 & H2 & H3 & H4).
      split; [|split; [|split]].
      - intros k Hk. apply H1. now apply map_set_keeps.
      - intros a [<-|Hin]; [|now apply H2].
        destruct (map_set_has aid atts acc) as (k0 & Hin0 & Hk0).
        exists k0. split; [now apply H1|exact Hk0].
      - intros k Hk. destruct (H3 k Hk) as [Hin|(a & Hin & ->)].
        + destruct (map_set_keys_from _ _ _ _ Hin) as [H' | ->]; [now left|].
          right. exists (VDict kvs). split; [now left|reflexivity].
        + right. exists a. split; [now right|reflexivity].
      - pose proof (map_set_length aid atts acc). cbn [length]. lia. }
    destruct (discover aid h) as [[atts|e] h1];
      unfold ret; (destruct (hashable aid); [|discriminate]); apply Hstep.
Qed.

(** X6.  Whenever [get_ticket_details] returns, every article of the view is
    a mapping that carries the requested ticket id (on both article paths).
    Without attachments the attachment dict is empty.  With attachments,
    every article has an entry under a key equal to its id, every key is the
    id of one of the articles, and there are no more entries than articles
    (articles with equal ids share one entry). *)
Theorem get_ticket_details_view (w : World) (ticket_id : Z)
    (include_attachments : bool) (h : trace) (d : TicketDetail) (h' : trace) :
  get_ticket_details w ticket_id include_attachments h = (Return d, h') ->
  Forall (fun a => is_dict a = true /\ belongs ticket_id a = true) (articles d)
  /\ (include_attachments = false -> attachments d = [])
  /\ (include_attachments = true ->
      (forall a, In a (articles d) ->
         exists k, In k (map fst (attachments d))
                   /\ (k = article_id a \/ key_eqb (article_id a) k = true))
      /\ (forall k, In k (map fst (attachments d)) ->
            exists a, In a (articles d) /\ k = article_id a)
      /\ (length (attachments d) <= length (articles d))%nat).
Proof.
  unfold get_ticket_details. unfold bind at 1.
  destruct (init_zammad_client w h) as [[client|e] h0]; [|discriminate].
  unfold bind at 1.
  destruct (ticket_or_placeholder w ticket_id h0) as [[t|e] h1]; [|discriminate].
  unfold bind at 1.
  destruct (articles_or_empty w ticket_id h1) as [[arts|e] h2] eqn:Ea; [|discriminate].
  pose proof (articles_or_empty_belong _ _ _ _ _ Ea) as Hb.
  unfold bind.
  destruct include_attachments.
  - destruct (attachments_loop _ arts [] h2) as [[m|e] h3] eqn:El; [|discriminate].
    intros [= <- _]. cbn [articles attachments]. split; [exact Hb|].
    split; [discriminate|]. intros _.
    apply attachments_loop_keys in El.
    + destruct El as (_ & H2 & H3 & H4). split; [exact H2|]. split; [|exact H4].
      intros k Hk. destruct (H3 k Hk) as [[]|Ha]. exact Ha.
    + clear -Hb. induction Hb as [|a arts [Ha _] _ IH]; constructor; assumption.
  - intros [= <- _]. cbn [articles attachments ret]. split; [exact Hb|].
    split; [reflexivity|discriminate].
Qed.

(** X6 on a backend whose two articles have the same id 7: one entry, holding
    what discovery returned for the second. *)
Lemma get_ticket_details_view_witness :
  exists d h',
    get_ticket_details
      (world_of (env_url "https://desk.example.org/") (fun _ => true) twin_ids) 5 true []
    = (Return d, h')
    /\ length (articles d) = 2%nat
    /\ attachments d = [(VInt 7, VList [VInt 3])]
    /\ (length (attachments d) <= length (articles d))%nat.
Proof.
  eexists. eexists. split; [reflexivity|]. split; [reflexivity|].
  split; [reflexivity|].
  destruct (get_ticket_details_view
              (world_of (env_url "https://desk.example.org/") (fun _ => true) twin_ids)
              5 true [] _ _ eq_refl) as (_ & _ & H).
  destruct (H eq_refl) as (_ & _ & Hl). exact Hl.
Defined.

(** ** Updates: validation, fallback and name resolution *)

Lemma collect_pages_trace_grows (first : value) (h : trace) :
  exists more, snd (_collect_pages first h) = h ++ more.
Proof.
  unfold _collect_pages. destruct (negb (truthy first)).
  - exists []. cbn. now rewrite app_nil_r.
  - destruct (collect_next_shape (chain_depth first) first (le_n _)
                (extend_or_append [] first) h) as [[k Hk] _].
    now exists (repeat next_page k).
Qed.

Lemma resolve_priority_returns (w : World) (name : string) (h : trace) :
  exists v more,
    resolve_priority w name h = (Return v, h ++ ticket_priority_all :: more).
Proof.
  unfold resolve_priority, try_except, bind, call, lift, ret.
  destruct (respond w h ticket_priority_all) as [page|e].
  - destruct (collect_pages_trace_grows page (h ++ [ticket_priority_all])) as [more Hm].
    destruct (_collect_pages page (h ++ [ticket_priority_all])) as [[ps|e1] h1];
      cbn [snd] in Hm; subst h1; rewrite <- app_assoc; cbn [app].
    + destruct (match_priority w ps name); eexists; eexists; reflexivity.
    + eexists; eexists; reflexivity.
  - eexists. exists []. reflexivity.
Qed.

Lemma trace_grown (h more more' : trace) (ev : event) :
  (h ++ ev :: more) ++ more' <> h.
Proof.
  intros E. apply (f_equal (@length event)) in E.
  rewrite !length_app in E. cbn in E. lia.
Qed.

(** X7.  With a connection configured, [set_ticket_priority] stops at its
    first check (the [ValueError] "Either priority_id or priority_name must be
    provided", before anything reaches the backend) exactly when neither a
    priority id nor a priority name is given. *)
Theorem set_ticket_priority_validation (w : World) (ticket_id : Z)
    (priority_id : option Z) (priority_name : option string) (h : trace) :
  configured w = true ->
  set_ticket_priority w ticket_id priority_id priority_name h = (Raise either_missing, h)
  <-> (priority_id = None /\ priority_name = None).
Proof.
  intros Hc. unfold set_ticket_priority. run_init w Hc.
  assert (Hupd : forall params,
             ticket_update w ticket_id params h <> (Raise either_missing, h)).
  { intros params E.
    destruct (ticket_update_sent w ticket_id params h) as (r & h' & E' & Hs).
    rewrite E in E'. injection E' as _ <-. now apply update_sent_grows in Hs. }
  destruct priority_id as [pid|], priority_name as [name|]; cbv iota.
  - split; [|intros [H _]; discriminate H].
    intros E. exfalso. now apply (Hupd (VDict [("priority_id", VInt pid)])).
  - split; [|intros [H _]; discriminate H].
    intros E. exfalso. now apply (Hupd (VDict [("priority_id", VInt pid)])).
  - split; [|intros [_ H]; discriminate H].
    intros E. exfalso.
    destruct (resolve_priority_returns w name h) as (v & more & Er).
    rewrite (bind_eq _ _ _ _ _ Er) in E.
    destruct v; try discriminate E;
      match type of E with
      | ticket_update _ _ ?p _ = _ =>
          destruct (ticket_update_sent w ticket_id p (h ++ ticket_priority_all :: more))
            as (r & h' & E' & Hs);
          rewrite E in E'; injection E' as _ <-;
          destruct Hs as [Hs|Hs]; symmetry in Hs; now apply trace_grown in Hs
      end.
  - split; [intros _; now split | intros _; reflexivity].
Qed.

Lemma set_ticket_priority_validation_witness :
  set_ticket_priority desk_world 5 None None [] = (Raise either_missing, []).
Proof.
  apply (set_ticket_priority_validation desk_world 5 None None [] eq_refl).
  now split.
Defined.

(** X8.  The loop over the priorities stops at the first priority whose name
    matches: when that one has no id (or a null id), the outcome is the
    [ValueError] "Could not resolve priority id", whatever comes after it in
    the listing, another priority of that name with an id included. *)
Theorem set_ticket_priority_first_match_decides (w : World) (ticket_id : Z)
    (name : string) (h h1 : trace) (before after : list value)
    (kvs : list (string * value)) :
  configured w = true ->
  list_priorities w h = (Return (before ++ VDict kvs :: after), h1) ->
  Forall (fun q => is_dict q = true /\ name_matches w name q = false) before ->
  name_matches w name (VDict kvs) = true ->
  dict_find "id" kvs = None \/ dict_find "id" kvs = Some VNone ->
  set_ticket_priority w ticket_id None (Some name) h = (Raise could_not_resolve, h1).
Proof.
  intros Hc Hl Hb Hm Hid. unfold set_ticket_priority. run_init w Hc. cbv iota.
  rewrite (bind_eq _ _ _ _ _ (resolve_priority_listed w name h _ h1 Hl)).
  rewrite (match_priority_first w name before after kvs Hb Hm).
  destruct Hid as [-> | ->]; reflexivity.
Qed.

Lemma set_ticket_priority_first_match_decides_witness :
  set_ticket_priority
    (world_of (env_url "https://desk.example.org/") (fun _ => true) half_listed)
    5 None (Some "URGENT") []
  = (Raise could_not_resolve, [ticket_priority_all]).
Proof.
  apply (set_ticket_priority_first_match_decides
           (world_of (env_url "https://desk.example.org/") (fun _ => true) half_listed)
           5 "URGENT" [] [ticket_priority_all] []
           [VDict [("id", VInt 3); ("name", VStr "Urgent")]]
           [("name", VStr "urgent")] eq_refl eq_refl).
  - constructor.
  - reflexivity.
  - now left.
Defined.

Lemma match_priority_lower (w : World) (ps : list value) (n1 n2 : string) :
  lower n1 = lower n2 ->
  match_priority w ps n1 = match_priority w ps n2.
Proof.
  intros E. induction ps as [|p ps IH]; [reflexivity|].
  cbn [match_priority py_str]. rewrite E, IH. reflexivity.
Qed.

(** X9.  Name resolution depends on the name only up to case: two names with
    the same lower-case form make [set_ticket_priority] behave the same, on
    every backend and from every history. *)
Theorem set_ticket_priority_case_insensitive (w : World) (ticket_id : Z)
    (priority_id : option Z) (n1 n2 : string) (h : trace) :
  lower n1 = lower n2 ->
  set_ticket_priority w ticket_id priority_id (Some n1) h
  = set_ticket_priority w ticket_id priority_id (Some n2) h.
Proof.
  intros E. unfold set_ticket_priority, bind.
  destruct (init_zammad_client w h) as [[client|e] h0]; [|reflexivity].
  destruct priority_id as [pid|]; [reflexivity|]. cbv iota.
  assert (Er : resolve_priority w n1 h0 = resolve_priority w n2 h0).
  { unfold resolve_priority, try_except, bind, lift.
    destruct (call w ticket_priority_all h0) as [[page|e0] h1]; [|reflexivity].
    destruct (_collect_pages page h1) as [[ps|e1] h2]; [|reflexivity].
    now rewrite (match_priority_lower w ps n1 n2 E). }
  now rewrite Er.
Qed.

Lemma set_ticket_priority_case_insensitive_witness :
  set_ticket_priority desk_world 5 None (Some "URGENT") []
  = set_ticket_priority desk_world 5 None (Some "urGent") [].
Proof.
  exact (set_ticket_priority_case_insensitive desk_world 5 None "URGENT" "urGent" []
           eq_refl).
Defined.

(** X10.  The update call of [set_ticket_state] and [set_ticket_priority]:
    the answer of the keyword call is the result; a [TypeError] of the
    keyword call, and nothing else, leads to the positional call, whose
    outcome is then the result; any other exception leaves after the one
    call. *)
Theorem ticket_update_fallback (w : World) (ticket_id : Z) (params : value)
    (h : trace) :
  (forall v,
      respond w h (ticket_update_kw ticket_id params) = Return v ->
      ticket_update w ticket_id params h
      = (Return v, h ++ [ticket_update_kw ticket_id params]))
  /\ (forall e,
        respond w h (ticket_update_kw ticket_id params) = Raise e ->
        (is_TypeError e = false ->
         ticket_update w ticket_id params h
         = (Raise e, h ++ [ticket_update_kw ticket_id params]))
        /\ (is_TypeError e = true ->
            ticket_update w ticket_id params h
            = (respond w (h ++ [ticket_update_kw ticket_id params])
                 (ticket_update_pos ticket_id params),
               h ++ [ticket_update_kw ticket_id params;
                     ticket_update_pos ticket_id params])))
  /\ (forall r h',
        ticket_update w ticket_id params h = (r, h') ->
        In (ticket_update_pos ticket_id params) h' ->
        ~ In (ticket_update_pos ticket_id params) h ->
        exists e, respond w h (ticket_update_kw ticket_id params) = Raise e
                  /\ is_TypeError e = true).
Proof.
  unfold ticket_update, try_except_TypeError, call.
  split; [|split].
  - intros v ->. reflexivity.
  - intros e ->. split; intros ->; [reflexivity|].
    now rewrite <- app_assoc.
  - intros r h'.
    destruct (respond w h (ticket_update_kw ticket_id params)) as [v|e].
    + intros [= _ <-] Hin Hn. apply in_app_or in Hin as [Hin|[Hin|[]]];
        [contradiction|discriminate Hin].
    + destruct (is_TypeError e) eqn:He; [intros _ _ _; now exists e|].
      intros [= _ <-] Hin Hn. apply in_app_or in Hin as [Hin|[Hin|[]]];
        [contradiction|discriminate Hin].
Qed.

(** X10 through [set_ticket_state], on a backend that only takes positional
    updates. *)
Lemma ticket_update_fallback_witness :
  set_ticket_state
    (world_of (env_url "https://desk.example.org/") (fun _ => true) positional_only)
    5 (Some "closed") None []
  = (Return (VDict [("id", VInt 5)]),
     [ticket_update_kw 5 (VDict [("state", VStr "closed")]);
      ticket_update_pos 5 (VDict [("state", VStr "closed")])]).
Proof.
  destruct (ticket_update_fallback
              (world_of (env_url "https://desk.example.org/") (fun _ => true) positional_only)
              5 (VDict [("state", VStr "closed")]) []) as (_ & H & _).
  destruct (H _ eq_refl) as (_ & H2).
  exact (H2 eq_refl).
Defined.

(** ** Posting a message *)

Lemma dict_find_set_same (k : string) (v : value) (d : list (string * value)) :
  dict_find k (dict_set k v d) = Some v.
Proof.
  induction d as [|[k' v'] d IH]; cbn.
  - now rewrite String.eqb_refl.
  - destruct (String.eqb k k') eqn:E; cbn; rewrite E; [reflexivity|exact IH].
Qed.

Lemma dict_find_set_other (k k0 : string) (v : value) (d : list (string * value)) :
  k0 <> k ->
  dict_find k0 (dict_set k v d) = dict_find k0 d.
Proof.
  intros Hne. induction d as [|[k' v'] d IH]; cbn.
  - apply String.eqb_neq in Hne. now rewrite Hne.
  - destruct (String.eqb k k') eqn:E; cbn.
    + apply String.eqb_eq in E. subst k'.
      apply String.eqb_neq in Hne. now rewrite Hne.
    + destruct (String.eqb k0 k'); [reflexivity|exact IH].
Qed.

Lemma dict_find_update (k : string) (extra : list (string * value)) :
  NoDup (map fst extra) ->
  forall d,
    dict_find k (dict_update d extra)
    = match dict_find k extra with
      | Some v => Some v
      | None => dict_find k d
      end.
Proof.
  unfold dict_update.
  induction extra as [|[k1 v1] extra IH]; intros Hnd d; [reflexivity|].
  cbn [map fst] in Hnd. inversion Hnd as [|? ? Hnin Hnd']; subst.
  cbn [fold_left fst snd dict_find]. rewrite (IH Hnd').
  destruct (String.eqb k k1) eqn:E.
  - apply String.eqb_eq in E. subst k1.
    assert (Hnone : dict_find k extra = None).
    { clear -Hnin. induction extra as [|[k2 v2] extra IH]; [reflexivity|].
      cbn in *. destruct (String.eqb k k2) eqn:E2.
      - apply String.eqb_eq in E2. subst k2. exfalso. apply Hnin. now left.
      - apply IH. intros H. apply Hnin. now right. }
    rewrite Hnone. apply dict_find_set_same.
  - apply String.eqb_neq in E.
    destruct (dict_find k extra); [reflexivity|].
    now apply dict_find_set_other.
Qed.

(** X11.  The parameters of a posted message: [ticket_id], [body] and
    [internal] are always there, [subject], [author_id] and [type] exactly
    when given; and every field of [additional_params] (a mapping, so its
    keys are distinct) replaces the field of that name or is added, the
    three fixed fields included. *)
Theorem message_params_fields (ticket_id : Z) (message : string)
    (subject : option string) (author_id : option Z) (internal : bool)
    (article_type : option string) (extra : list (string * value)) (k : string) :
  NoDup (map fst extra) ->
  let base :=
    message_params ticket_id message subject author_id internal article_type None in
  dict_find "ticket_id" base = Some (VInt ticket_id)
  /\ dict_find "body" base = Some (VStr message)
  /\ dict_find "internal" base = Some (VBool internal)
  /\ dict_find "subject" base = option_map VStr subject
  /\ dict_find "author_id" base = option_map VInt author_id
  /\ dict_find "type" base = option_map VStr article_type
  /\ dict_find k (message_params ticket_id message subject author_id internal
                    article_type (Some extra))
     = match dict_find k extra with
       | Some v => Some v
       | None => dict_find k base
       end.
Proof.
  intros Hnd base. unfold base.
  repeat (split; [destruct subject, author_id, article_type; reflexivity|]).
  unfold message_params.
  destruct extra as [|kv extra]; [reflexivity|].
  cbn [truthy]. now apply dict_find_update.
Qed.

(** X11 on an example: the extra fields override [ticket_id] and add
    [content_type]. *)
Lemma message_params_fields_witness :
  message_params 5 "hello" (Some "Re") None true None
    (Some [("ticket_id", VInt 6); ("content_type", VStr "text/html")])
  = [("ticket_id", VInt 6); ("body", VStr "hello"); ("internal", VBool true);
     ("subject", VStr "Re"); ("content_type", VStr "text/html")]
  /\ dict_find "ticket_id"
       (message_params 5 "hello" (Some "Re") None true None
          (Some [("ticket_id", VInt 6); ("content_type", VStr "text/html")]))
     = Some (VInt 6).
Proof.
  split; [reflexivity|].
  assert (Hnd : NoDup (map fst [("ticket_id", VInt 6); ("content_type", VStr "text/html")])).
  { cbn. constructor.
    - intros [H|[]]. discriminate H.
    - constructor; [intros []|constructor]. }
  destruct (message_params_fields 5 "hello" (Some "Re") None true None
              [("ticket_id", VInt 6); ("content_type", VStr "text/html")]
              "ticket_id" Hnd) as (_ & _ & _ & _ & _ & _ & H).
  exact H.
Defined.

Lemma first_truthy_returns (callers : list (M value)) :
  forall last_error h,
  exists r last_error' h',
    first_truthy callers last_error h = (Return (r, last_error'), h')
    /\ (forall resp, r = Some resp -> truthy resp = true).
Proof.
  induction callers as [|c callers IH]; intros last_error h.
  - exists None, last_error, h. split; [reflexivity|discriminate].
  - cbn [first_truthy]. destruct (c h) as [[resp|e] h1].
    + destruct (truthy resp) eqn:Ht.
      * exists (Some resp), last_error, h1. split; [reflexivity|].
        now intros resp' [= <-].
      * apply IH.
    + apply IH.
Qed.

(** X12.  What [send_message_to_ticket] gives back with a connection
    configured: a response it returns is truthy, and the only exception it
    raises is its own [RuntimeError]; an exception of the backend never
    leaves it as such. *)
Theorem send_message_outcomes (w : World) (ticket_id : Z) (message : string)
    (subject : option string) (author_id : option Z) (internal : bool)
    (article_type : option string)
    (additional_params : option (list (string * value))) (h : trace) :
  configured w = true ->
  exists r h',
    send_message_to_ticket w ticket_id message subject author_id internal
      article_type additional_params h = (r, h')
    /\ match r with
       | Return resp => truthy resp = true
       | Raise e => exn_cls e = RuntimeError
       end.
Proof.
  intros Hc. unfold send_message_to_ticket. run_init w Hc.
  match goal with
  | |- context [first_truthy ?cs None] =>
      destruct (first_truthy_returns cs None h) as (r & le & h1 & E & Ht)
  end.
  rewrite (bind_eq _ _ _ _ _ E).
  destruct r as [resp|].
  - exists (Return resp), h1. split; [reflexivity|]. now apply Ht.
  - eexists. eexists. split; reflexivity.
Qed.

Lemma send_message_outcomes_witness :
  exists r h',
    send_message_to_ticket picky_world 5 "hello" None None false None None [] = (r, h')
    /\ match r with
       | Return resp => truthy resp = true
       | Raise e => exn_cls e = RuntimeError
       end.
Proof.
  exact (send_message_outcomes picky_world 5 "hello" None None false None None []
           eq_refl).
Defined.

(** X13.  A client with neither a [ticket_article] nor a [ticket] attribute:
    [send_message_to_ticket] reaches the backend with nothing and raises its
    [RuntimeError], with no error to report. *)
Theorem send_message_no_capability (w : World) (ticket_id : Z) (message : string)
    (subject : option string) (author_id : option Z) (internal : bool)
    (article_type : option string)
    (additional_params : option (list (string * value))) (h : trace) :
  configured w = true ->
  client_has w "ticket_article" = false ->
  client_has w "ticket" = false ->
  send_message_to_ticket w ticket_id message subject author_id internal
    article_type additional_params h
  = (Raise (mkExn RuntimeError "Could not create ticket article. Last error: None"), h).
Proof.
  intros Hc Ha Ht. unfold send_message_to_ticket. run_init w Hc.
  unfold message_callers. rewrite Ha, Ht. reflexivity.
Qed.

Lemma send_message_no_capability_witness :
  send_message_to_ticket bare_world 5 "hello" None None false None None []
  = (Raise (mkExn RuntimeError "Could not create ticket article. Last error: None"), []).
Proof.
  exact (send_message_no_capability bare_world 5 "hello" None None false None None []
           eq_refl eq_refl eq_refl).
Defined.

(** ** Download: candidates, other response shapes, the file *)




(** X15.  Turning a response into bytes raises in two situations only: the
    [read] of a stream raises, or the response is a mapping whose JSON text
    cannot be produced (its [data] field, if any, not decoding).  Every other
    response gives bytes: a value that is neither a mapping nor a stream and
    has no JSON text gives the empty buffer. *)
Theorem response_data_raises_only (w : World) (resp : value) (e : exn) :
  response_data w resp = Raise e ->
  (exists t it np, resp = VObj t it np (Raises e))
  \/ (exists kvs,
        resp = VDict kvs
        /\ json_dumps w resp = Raise e
        /\ forall d, dict_find "data" kvs = Some d ->
                     exists e', b64decode w d = Raise e').
Proof.
  unfold response_data, json_bytes.
  destruct resp; try (destruct (json_dumps w _); discriminate).
  - intros H. right. exists kvs.
    destruct (dict_find "data" kvs) as [d|].
    + destruct (b64decode w d) as [bs|e'] eqn:Ed; [discriminate|].
      destruct (json_dumps w (VDict kvs)); [discriminate|].
      injection H as <-. split; [reflexivity|]. split; [reflexivity|].
      intros d' [= <-]. now exists e'.
    + assert (Hj : match json_dumps w (VDict kvs) with
                   | Return s => Return (VBytes (encode s))
                   | Raise e0 => Raise e0
                   end = Raise e).
      { destruct (dict_find "file" kvs) as [[]|]; try exact H. discriminate H. }
      destruct (json_dumps w (VDict kvs)); [discriminate|].
      injection Hj as <-. split; [reflexivity|]. split; [reflexivity|].
      intros d' H'. discriminate H'.
  - destruct o_read.
    + destruct (json_dumps w _); discriminate.
    + intros [= <-]. left. eauto.
    + discriminate.
Qed.

Lemma response_data_raises_only_witness :
  exists kvs,
    VDict [("data", VBytes (encode "raw"))] = VDict kvs
    /\ json_dumps (download_world VNone) (VDict [("data", VBytes (encode "raw"))])
       = Raise (mkExn TypeError "Object is not JSON serializable").
Proof.
  destruct (response_data_raises_only (download_world VNone)
              (VDict [("data", VBytes (encode "raw"))])
              (mkExn TypeError "Object is not JSON serializable") eq_refl)
    as [(t & it & np & H)|(kvs & H1 & H2 & _)].
  - discriminate H.
  - exists kvs. split; assumption.
Defined.



(** X17.  [download_attachment] returns only its destination path, and only
    after the file was written: the trace of a call that returns ends with
    the creation of the parent directory and the write of the file, and the
    response before them was truthy. *)
Theorem download_attachment_returns_after_write (w : World)
    (attachment_id ticket_id article_id : Z) (dest_path : string) (h : trace)
    (p : string) (h' : trace) :
  download_attachment w attachment_id ticket_id article_id dest_path h = (Return p, h') ->
  p = dest_path
  /\ exists h1 bs,
       h' = h1 ++ [mkdir_parents dest_path; write_file dest_path bs].
Proof.
  unfold download_attachment. unfold bind at 1.
  destruct (init_zammad_client w h) as [[client|e] h0]; [|discriminate].
  match goal with
  | |- context [first_truthy ?cs None] =>
      destruct (first_truthy_returns cs None h0) as (r & le & h1 & E & _)
  end.
  rewrite (bind_eq _ _ _ _ _ E).
  destruct r as [resp|]; [|discriminate].
  unfold lift, write_bytes, emit, bind, ret.
  destruct (response_data w resp) as [data|e]; [|discriminate].
  destruct data; try discriminate.
  intros [= <- <-]. split; [reflexivity|].
  exists h1, bs. now rewrite <- app_assoc.
Qed.

Lemma download_attachment_returns_after_write_witness :
  exists h1 bs,
    [ticket_article_attachment_download_kw 1 5 7;
     mkdir_parents "out/a.bin"; write_file "out/a.bin" (encode "hello")]
    = h1 ++ [mkdir_parents "out/a.bin"; write_file "out/a.bin" bs].
Proof.
  exact (proj2 (download_attachment_returns_after_write
                  (download_world (VDict [("data", VStr "aGVsbG8=")]))
                  1 5 7 "out/a.bin" [] "out/a.bin" _ eq_refl)).
Defined.

(** ** Attachment discovery: the second and third strategies *)

(** X18.  With a connection configured and nothing embedded in the article,
    a client that has the listing endpoint is asked by keyword; a [TypeError]
    leads to the positional call.  A truthy page is drained by the Page
    Collector and returned as the result: the fetch by id alone is not
    reached. *)
Theorem listed_attachments_second (w : World) (ticket_id : Z) (article_id : value)
    (h h1 : trace) (page : value) (items : list value) :
  configured w = true ->
  embedded_attachments w ticket_id article_id h = (Return None, h1) ->
  client_has w "ticket_article_attachment" = true ->
  truthy page = true ->
  (forall h2,
      respond w h1 (ticket_article_attachment_all_kw ticket_id article_id) = Return page ->
      _collect_pages page (h1 ++ [ticket_article_attachment_all_kw ticket_id article_id])
        = (Return items, h2) ->
      list_article_attachments w ticket_id article_id h = (Return (VList items), h2))
  /\ (forall e h2,
        respond w h1 (ticket_article_attachment_all_kw ticket_id article_id) = Raise e ->
        is_TypeError e = true ->
        respond w (h1 ++ [ticket_article_attachment_all_kw ticket_id article_id])
          (ticket_article_attachment_all_pos ticket_id article_id) = Return page ->
        _collect_pages page
          (h1 ++ [ticket_article_attachment_all_kw ticket_id article_id;
                  ticket_article_attachment_all_pos ticket_id article_id])
          = (Return items, h2) ->
        list_article_attachments w ticket_id article_id h = (Return (VList items), h2)).
Proof.
  intros Hc He Hcap Ht. unfold list_article_attachments. run_init w Hc.
  rewrite (bind_eq _ _ _ _ _ He). cbv iota beta.
  split.
  - intros h2 Hr Hcol.
    assert (E : listed_attachments w ticket_id article_id h1
                = (Return (Some (VList items)), h2)).
    { unfold listed_attachments, try_except, try_except_TypeError, bind, call.
      rewrite Hcap, Hr, Ht, Hcol. reflexivity. }
    now rewrite (bind_eq _ _ _ _ _ E).
  - intros e h2 Hr Hte Hr2 Hcol.
    assert (E : listed_attachments w ticket_id article_id h1
                = (Return (Some (VList items)), h2)).
    { unfold listed_attachments, try_except, try_except_TypeError, bind, call.
      rewrite Hcap, Hr, Hte, Hr2, Ht. rewrite <- app_assoc. cbn [app].
      rewrite Hcol. reflexivity. }
    now rewrite (bind_eq _ _ _ _ _ E).
Qed.

Lemma listed_attachments_second_witness :
  list_article_attachments listing_world 5 (VInt 7) []
  = (Return (VList [VDict [("id", VInt 2); ("filename", VStr "b.png")]]),
     [ticket_article_find_kw 5 (VInt 7);
      ticket_article_attachment_all_kw 5 (VInt 7);
      ticket_article_attachment_all_pos 5 (VInt 7)]).
Proof.
  destruct (listed_attachments_second listing_world 5 (VInt 7) []
              [ticket_article_find_kw 5 (VInt 7)]
              (VList [VDict [("id", VInt 2); ("filename", VStr "b.png")]])
              [VDict [("id", VInt 2); ("filename", VStr "b.png")]]
              eq_refl eq_refl eq_refl eq_refl) as (_ & H).
  exact (H _ _ eq_refl eq_refl eq_refl eq_refl).
Defined.

Lemma attachment_record_is_dict (w : World) (vs : list value) :
  Forall (fun r => is_dict r = true) (map (attachment_record w) vs).
Proof.
  induction vs as [|v vs IH]; constructor; [|exact IH].
  unfold attachment_record. destruct (is_dict v) eqn:E; [exact E|reflexivity].
Qed.

Lemma legacy_fields_some (w : World) (keys : list string)
    (art2 : list (string * value)) (out : value) :
  legacy_fields w keys art2 = Some out ->
  exists key v vs,
    In key keys
    /\ dict_find key art2 = Some (VList (v :: vs))
    /\ out = VList (map (attachment_record w) (v :: vs)).
Proof.
  induction keys as [|key keys IH]; [discriminate|].
  cbn [legacy_fields].
  destruct (dict_find key art2) as [vals|] eqn:Ef.
  - destruct (truthy vals) eqn:Ht.
    + destruct vals;
        try (intros H; destruct (IH H) as (k & v & vs & Hin & Hk & Ho);
             exists k, v, vs; split; [now right|now split]).
      destruct xs as [|v vs]; [discriminate Ht|].
      intros [= <-]. exists key, v, vs. split; [now left|now split].
    + intros H; destruct (IH H) as (k & v & vs & Hin & Hk & Ho).
      exists k, v, vs. split; [now right|now split].
  - intros H; destruct (IH H) as (k & v & vs & Hin & Hk & Ho).
    exists k, v, vs. split; [now right|now split].
Qed.

(** X19.  With a connection configured, when the first two strategies yield
    nothing and the article fetched by its id alone is a mapping, the result
    is read off its legacy fields: either nothing usable and the empty list,
    or the non-empty list under one of [attachment_ids], [attachments_ids],
    [attachments], element by element, a mapping kept and anything else
    turned into a record with [id] and [filename]; every element returned is
    a mapping.  A non-empty list under [attachment_ids] wins over the other
    two fields. *)
Theorem legacy_attachments_third (w : World) (ticket_id : Z) (article_id : value)
    (h h1 h2 : trace) (kvs : list (string * value)) :
  configured w = true ->
  embedded_attachments w ticket_id article_id h = (Return None, h1) ->
  listed_attachments w ticket_id article_id h1 = (Return None, h2) ->
  respond w h2 (ticket_article_find_pos article_id) = Return (VDict kvs) ->
  exists out,
    list_article_attachments w ticket_id article_id h
    = (Return (VList out), h2 ++ [ticket_article_find_pos article_id])
    /\ Forall (fun r => is_dict r = true) out
    /\ (out = []
        \/ exists key v vs,
             In key ["attachment_ids"; "attachments_ids"; "attachments"]
             /\ dict_find key kvs = Some (VList (v :: vs))
             /\ out = map (attachment_record w) (v :: vs))
    /\ (forall v vs,
          dict_find "attachment_ids" kvs = Some (VList (v :: vs)) ->
          out = map (attachment_record w) (v :: vs)).
Proof.
  intros Hc He Hl Hr. unfold list_article_attachments. run_init w Hc.
  rewrite (bind_eq _ _ _ _ _ He). cbv iota beta.
  rewrite (bind_eq _ _ _ _ _ Hl). cbv iota beta.
  assert (E : legacy_attachments w article_id h2
              = (Return (legacy_fields w ["attachment_ids"; "attachments_ids"; "attachments"] kvs),
                 h2 ++ [ticket_article_find_pos article_id])).
  { unfold legacy_attachments, try_except, bind, call. now rewrite Hr. }
  rewrite (bind_eq _ _ _ _ _ E).
  destruct (legacy_fields w ["attachment_ids"; "attachments_ids"; "attachments"] kvs)
    as [out|] eqn:Elf.
  - destruct (legacy_fields_some w _ _ _ Elf) as (key & v & vs & Hin & Hk & ->).
    exists (map (attachment_record w) (v :: vs)).
    split; [reflexivity|]. split; [apply attachment_record_is_dict|].
    split; [right; exists key, v, vs; now repeat split|].
    intros v' vs' Hid. cbn [legacy_fields] in Elf. rewrite Hid in Elf.
    cbn [truthy] in Elf. congruence.
  - exists []. split; [reflexivity|]. split; [constructor|]. split; [now left|].
    intros v' vs' Hid. cbn [legacy_fields] in Elf. rewrite Hid in Elf.
    discriminate Elf.
Qed.

(** X19 on a client without the listing attribute: ids 3 and a mapping under
    [attachment_ids] give one made-up record and the mapping. *)
Lemma legacy_attachments_third_witness :
  list_article_attachments legacy_world 5 (VInt 7) []
  = (Return (VList [VDict [("id", VInt 3); ("filename", VStr "attachment_3")];
                    VDict [("id", VInt 4)]]),
     [ticket_article_find_kw 5 (VInt 7); ticket_article_find_pos (VInt 7)]).
Proof.
  destruct (legacy_attachments_third legacy_world 5 (VInt 7) []
              [ticket_article_find_kw 5 (VInt 7)] [ticket_article_find_kw 5 (VInt 7)]
              [("attachments_ids", VStr "3,4");
               ("attachment_ids", VList [VInt 3; VDict [("id", VInt 4)]])]
              eq_refl eq_refl eq_refl eq_refl) as (out & E & _ & _ & H).
  rewrite E. rewrite (H _ _ eq_refl). reflexivity.
Defined.

(** X20.  With a connection configured and a client that has no listing
    attribute, discovery returns after at most two calls, the fetch of the
    article by ticket and article id and the fetch by id alone: the listing
    endpoint is never called. *)
Theorem discovery_without_listing (w : World) (ticket_id : Z) (article_id : value)
    (h : trace) :
  configured w = true ->
  client_has w "ticket_article_attachment" = false ->
  exists v h',
    list_article_attachments w ticket_id article_id h = (Return v, h')
    /\ (h' = h ++ [ticket_article_find_kw ticket_id article_id]
        \/ h' = h ++ [ticket_article_find_kw ticket_id article_id;
                      ticket_article_find_pos article_id]).
Proof.
  intros Hc Hcap. unfold list_article_attachments. run_init w Hc.
  assert (E1 : exists r1,
             embedded_attachments w ticket_id article_id h
             = (Return r1, h ++ [ticket_article_find_kw ticket_id article_id])).
  { unfold embedded_attachments, try_except, bind, call, ret.
    destruct (respond w h _) as [art|e]; [|eexists; reflexivity].
    destruct (truthy art); [|eexists; reflexivity].
    match goal with |- context [truthy ?a] => destruct (truthy a) end;
      eexists; reflexivity. }
  destruct E1 as [r1 E1]. rewrite (bind_eq _ _ _ _ _ E1).
  destruct r1 as [att|].
  { exists att. eexists. split; [reflexivity|now left]. }
  assert (E2 : listed_attachments w ticket_id article_id
                 (h ++ [ticket_article_find_kw ticket_id article_id])
               = (Return None, h ++ [ticket_article_find_kw ticket_id article_id])).
  { unfold listed_attachments, try_except. now rewrite Hcap. }
  rewrite (bind_eq _ _ _ _ _ E2). cbv iota beta.
  assert (E3 : exists r3,
             legacy_attachments w article_id
               (h ++ [ticket_article_find_kw ticket_id article_id])
             = (Return r3,
                (h ++ [ticket_article_find_kw ticket_id article_id])
                ++ [ticket_article_find_pos article_id])).
  { unfold legacy_attachments, try_except, bind, call, ret.
    destruct (respond w _ _) as [art2|e]; [|eexists; reflexivity].
    destruct art2; eexists; reflexivity. }
  destruct E3 as [r3 E3]. rewrite (bind_eq _ _ _ _ _ E3).
  rewrite <- app_assoc in *. cbn [app].
  destruct r3 as [out|]; eexists; eexists; (split; [reflexivity|now right]).
Qed.

Lemma discovery_without_listing_witness :
  exists v h',
    list_article_attachments bare_world 5 (VInt 7) [] = (Return v, h')
    /\ (h' = [] ++ [ticket_article_find_kw 5 (VInt 7)]
        \/ h' = [] ++ [ticket_article_find_kw 5 (VInt 7); ticket_article_find_pos (VInt 7)]).
Proof.
  exact (discovery_without_listing bare_world 5 (VInt 7) [] eq_refl eq_refl).
Defined.

(** ** Configuration *)

(** X21.  Without the base URL the read operations raise the
    [EnvironmentError] of [init_zammad_client] and nothing reaches the
    backend. *)
Theorem read_operations_need_configuration (w : World) (h : trace) :
  url_set w = false ->
  get_all_tickets w h = (Raise not_set, h)
  /\ get_all_articles w h = (Raise not_set, h)
  /\ (forall ticket_id, get_ticket w ticket_id h = (Raise not_set, h))
  /\ (forall ticket_id, get_ticket_articles w ticket_id h = (Raise not_set, h)).
Proof.
  intros Hc. repeat split; intros; apply (bind_init_unconfigured w Hc).
Qed.

Lemma read_operations_need_configuration_witness :
  get_all_tickets unconfigured_world [] = (Raise not_set, [])
  /\ get_ticket_articles unconfigured_world 5 [] = (Raise not_set, []).
Proof.
  destruct (read_operations_need_configuration unconfigured_world [] eq_refl)
    as (H1 & _ & _ & H4).
  split; [exact H1|exact (H4 5)].
Defined.

Lemma rstrip_all_slashes (t : string) :
  all_slashes t = true -> rstrip_slash t = EmptyString.
Proof.
  induction t as [|c t IH]; [reflexivity|].
  cbn. intros H. apply andb_prop in H as [Hc Ht].
  now rewrite (IH Ht), Hc.
Qed.

Lemma rstrip_slash_app (s t : string) :
  all_slashes t = true ->
  rstrip_slash (String.append s t) = rstrip_slash s.
Proof.
  intros Ht. induction s as [|c s IH].
  - cbn. now apply rstrip_all_slashes.
  - cbn. now rewrite IH.
Qed.

(** X22.  Trailing slashes of the base URL do not matter: two environments
    whose [zammad_url] differ only by slashes at the end, with the same
    credentials and the same library, give the same outcome of
    [init_zammad_client]. *)
Theorem init_zammad_client_trailing_slashes (w1 w2 : World) (url_base slashes : string)
    (h : trace) :
  getenv w1 "zammad_url" = Some url_base ->
  url_base <> EmptyString ->
  getenv w2 "zammad_url" = Some (String.append url_base slashes) ->
  all_slashes slashes = true ->
  getenv w2 "zammad_username" = getenv w1 "zammad_username" ->
  getenv w2 "zammad_password" = getenv w1 "zammad_password" ->
  ZammadAPI_init w2 = ZammadAPI_init w1 ->
  init_zammad_client w2 h = init_zammad_client w1 h.
Proof.
  intros H1 Hne H2 Hs Hu Hp Hz. unfold init_zammad_client.
  rewrite H1, H2, Hu, Hp, Hz.
  apply String.eqb_neq in Hne. rewrite Hne.
  assert (Hne2 : String.eqb (String.append url_base slashes) EmptyString = false).
  { destruct url_base; [discriminate Hne|reflexivity]. }
  rewrite Hne2. now rewrite (rstrip_slash_app _ _ Hs).
Qed.

Lemma init_zammad_client_trailing_slashes_witness :
  init_zammad_client (world_of (env_url "https://desk.example.org///") (fun _ => true) desk) []
  = init_zammad_client (world_of (env_url "https://desk.example.org") (fun _ => true) desk) [].
Proof.
  apply (init_zammad_client_trailing_slashes
           (world_of (env_url "https://desk.example.org") (fun _ => true) desk)
           (world_of (env_url "https://desk.example.org///") (fun _ => true) desk)
           "https://desk.example.org" "///" []); try reflexivity.
  discriminate.
Defined.
